(** * WalletContractV4: client-side wallet object of the TON SDK

    A shallow embedding of [src/wallets/WalletContractV4.ts].

    The wallet is a value object: the constructor derives the contract's
    initial code and data cells and its address; the methods talk to an
    injected [ContractProvider] and to the transfer builder of the signing
    module.  Everything the file imports from ["@ton/core"] (cells, the cell
    builder, addresses, [internal], the tuple reader) is an interface here,
    [TonCore]; the transfer builder [createWalletTransferV4] is the interface
    [WalletSigning].

    Conventions of the embedding:
    - a JavaScript [number] or [bigint] that the code handles is an integer
      and is a [Z]; [698983191 + workchain] is integer addition;
    - a [Buffer] is a [list Byte.byte];
    - a call that can throw returns a [Completion]: the value, or the thrown
      value; an [async] method is a [Task], a state transformer over the
      [World] (the wallet object, the provider's own state, and the log of
      the provider round trips made so far) ending in a [Completion];
      [await] is the monadic bind, so a rejected promise propagates as the
      thrown value does;
    - an object built by a literal and read by property name is a
      [gmap string Value]. *)

From stdpp Require Import base option list strings gmap.
From Stdlib Require Import ZArith.
From Stdlib.Strings Require Import Byte.

Local Open Scope Z_scope.

(** ** Values of the language *)

(** [Maybe<T> = T | null | undefined], from [utils/maybe]. *)
Inductive Maybe (A : Type) : Type :=
  | Just (a : A)
  | Null
  | Undefined.
Arguments Just {A} a.
Arguments Null {A}.
Arguments Undefined {A}.

(** [m !== null && m !== undefined] *)
Definition is_nullish {A} (m : Maybe A) : bool :=
  match m with
  | Just _ => false
  | Null | Undefined => true
  end.

Definition Buffer : Type := list Byte.byte.

(** The outcome of evaluating an expression: a value, or a thrown one. *)
Inductive Completion (E A : Type) : Type :=
  | Returns (a : A)
  | Throws (e : E).
Arguments Returns {E A} a.
Arguments Throws {E A} e.

Definition cbind {E A B} (c : Completion E A) (k : A -> Completion E B)
  : Completion E B :=
  match c with
  | Returns a => k a
  | Throws e => Throws e
  end.

Definition thrown {E A} (c : Completion E A) : option E :=
  match c with
  | Returns _ => None
  | Throws e => Some e
  end.

Global Instance Completion_ret {E} : MRet (Completion E) := fun _ a => Returns a.
Global Instance Completion_bind {E} : MBind (Completion E) :=
  fun _ _ k c => cbind c k.

(** ** The SDK interface, ["@ton/core"] *)

(** The argument of [internal(...)], as the two call sites build it. *)
Record InternalArgs (Address Cell StateInit : Type) : Type := {
  ia_to : Address;
  ia_value : Z;
  ia_init : Maybe StateInit;
  ia_body : Maybe Cell;
  ia_bounce : Maybe bool;
}.
Arguments ia_to {_ _ _} _.
Arguments ia_value {_ _ _} _.
Arguments ia_init {_ _ _} _.
Arguments ia_body {_ _ _} _.
Arguments ia_bounce {_ _ _} _.

Class TonCore : Type := {
  (** whatever a [throw] can carry *)
  Exn : Type;
  Cell : Type;
  Address : Type;
  Builder : Type;
  StateInit : Type;
  MessageRelaxed : Type;
  TupleItem : Type;
  TupleReader : Type;
  (** [Buffer.from(s, "base64")] *)
  Buffer_from_base64 : string -> Buffer;
  (** [Cell.fromBoc(buf)]: the root cells *)
  Cell_fromBoc : Buffer -> Completion Exn (list Cell);
  beginCell : Builder;
  (** [b.storeUint(value, bits)] *)
  storeUint : Builder -> Z -> Z -> Completion Exn Builder;
  storeBuffer : Builder -> Buffer -> Completion Exn Builder;
  storeBit : Builder -> Z -> Completion Exn Builder;
  endCell : Builder -> Completion Exn Cell;
  (** [contractAddress(workchain, { code, data })]; [code] is [None] when
      the property holds [undefined] *)
  contractAddress : Z -> option Cell -> Cell -> Completion Exn Address;
  internal : InternalArgs Address Cell StateInit -> Completion Exn MessageRelaxed;
  (** [reader.readNumber()] *)
  readNumber : TupleReader -> Completion Exn Z;
  (** [SendMode.PAY_GAS_SEPARATELY] *)
  PAY_GAS_SEPARATELY : Z;
}.

(** ** Objects read by property name *)

Inductive Value `{TonCore} : Type :=
  | VUndefined
  | VNull
  | VNumber (n : Z)
  | VBoolean (b : bool)
  | VString (s : string)
  | VBuffer (b : Buffer)
  | VCell (c : Cell)
  | VMessages (ms : list MessageRelaxed)
  | VSigner (sign : Cell -> Completion Exn Buffer).

(** [o.k]: a missing property reads as [undefined]. *)
Definition prop `{TonCore} (o : gmap string Value) (k : string) : Value :=
  default VUndefined (o !! k).

(** [v ?? d] *)
Definition nullish_or `{TonCore} (v d : Value) : Value :=
  match v with
  | VUndefined | VNull => d
  | _ => v
  end.

Definition of_maybe `{TonCore} {A} (inj : A -> Value) (m : Maybe A) : Value :=
  match m with
  | Just a => inj a
  | Null => VNull
  | Undefined => VUndefined
  end.

(** ** The signing module, [./signing/createWalletTransfer] *)

Class WalletSigning `{TonCore} : Type := {
  (** [createWalletTransferV4(args)]: the signed external message, or what
      the builder or the signing routine throws *)
  createWalletTransferV4 : gmap string Value -> Completion Exn Cell;
}.

(** ** The wallet object *)

Record Init `{TonCore} : Type := {
  data : Cell;
  code : option Cell;
}.

Record WalletContractV4 `{TonCore} : Type := {
  workchain : Z;
  publicKey : Buffer;
  address : Address;
  walletId : Z;
  init : Init;
}.

(** The base64 text of the wallet's code, the literal of the constructor. *)
Definition walletCodeBoc : string :=
  "te6ccgECFAEAAtQAART/APSkE/S88sgLAQIBIAIDAgFIBAUE+PKDCNcYINMf0x/THwL4I7vyZO1E0NMf0x/T//QE0VFDuvKhUVG68qIF+QFUEGT5EPKj+AAkpMjLH1JAyx9SMMv/UhD0AMntVPgPAdMHIcAAn2xRkyDXSpbTB9QC+wDoMOAhwAHjACHAAuMAAcADkTDjDQOkyMsfEssfy/8QERITAubQAdDTAyFxsJJfBOAi10nBIJJfBOAC0x8hghBwbHVnvSKCEGRzdHK9sJJfBeAD+kAwIPpEAcjKB8v/ydDtRNCBAUDXIfQEMFyBAQj0Cm+hMbOSXwfgBdM/yCWCEHBsdWe6kjgw4w0DghBkc3RyupJfBuMNBgcCASAICQB4AfoA9AQw+CdvIjBQCqEhvvLgUIIQcGx1Z4MesXCAGFAEywUmzxZY+gIZ9ADLaRfLH1Jgyz8gyYBA+wAGAIpQBIEBCPRZMO1E0IEBQNcgyAHPFvQAye1UAXKwjiOCEGRzdHKDHrFwgBhQBcsFUAPPFiP6AhPLassfyz/JgED7AJJfA+ICASAKCwBZvSQrb2omhAgKBrkPoCGEcNQICEekk30pkQzmkD6f+YN4EoAbeBAUiYcVnzGEAgFYDA0AEbjJftRNDXCx+AA9sp37UTQgQFA1yH0BDACyMoHy//J0AGBAQj0Cm+hMYAIBIA4PABmtznaiaEAga5Drhf/AABmvHfaiaEAQa5DrhY/AAG7SB/oA1NQi+QAFyMoHFcv/ydB3dIAYyMsFywIizxZQBfoCFMtrEszMyXP7AMhAFIEBCPRR8qcCAHCBAQjXGPoA0z/IVCBHgQEI9FHyp4IQbm90ZXB0gBjIywXLAlAGzxZQBPoCFMtqEssfyz/Jc/sAAgBsgQEI1xj6ANM/MFIkgQEI9Fnyp4IQZHN0cnB0gBjIywXLAlAFzxZQA/oCE8tqyx8Syz/Jc/sAAAr0AMntVA==".

(** ** The contract provider *)

(** [state.state]: the tagged union of [ContractState]. *)
Inductive AccountState : Type :=
  | uninit
  | active (code data : option Buffer)
  | frozen (stateHash : Buffer).

Definition is_active (a : AccountState) : bool :=
  match a with
  | active _ _ => true
  | _ => false
  end.

Record ContractState : Type := {
  balance : Z;
  state : AccountState;
}.

Record ContractGetMethodResult `{TonCore} : Type := {
  stack : TupleReader;
}.

(** The three methods of [ContractProvider] the wallet uses.  The provider
    is owned by the caller; [S] is whatever it keeps (the connection, the
    ledger it talks to), and each method may throw. *)
Record ContractProvider `{TonCore} (S : Type) : Type := {
  getState : S -> Completion Exn ContractState * S;
  get : string -> list TupleItem -> S
        -> Completion Exn ContractGetMethodResult * S;
  external : Cell -> S -> Completion Exn unit * S;
}.
Arguments getState {_ _} _ _.
Arguments get {_ _} _ _ _ _.
Arguments external {_ _} _ _ _.

(** One round trip to the provider: what was asked, and the error it raised
    if it did. *)
Inductive ProviderCall `{TonCore} : Type :=
  | CallGetState
  | CallGet (name : string) (args : list TupleItem)
  | CallExternal (message : Cell).

Record RoundTrip `{TonCore} : Type := {
  request : ProviderCall;
  raised : option Exn;
}.

(** ** Tasks *)

Record World `{TonCore} (S : Type) : Type := {
  this : WalletContractV4;
  chain : S;
  trips : list RoundTrip;
}.
Arguments this {_ _} _.
Arguments chain {_ _} _.
Arguments trips {_ _} _.

Definition Task `{TonCore} (S A : Type) : Type :=
  World S -> Completion Exn A * World S.

Global Instance Task_ret `{TonCore} {S} : MRet (Task S) :=
  fun _ a w => (Returns a, w).
Global Instance Task_bind `{TonCore} {S} : MBind (Task S) :=
  fun _ _ k t w =>
    match t w with
    | (Returns a, w') => k a w'
    | (Throws e, w') => (Throws e, w')
    end.

(** A synchronous expression inside a task. *)
Definition eval `{TonCore} {S A} (c : Completion Exn A) : Task S A :=
  fun w => (c, w).

(** Reading [this]. *)
Definition self `{TonCore} {S} : Task S WalletContractV4 :=
  fun w => (Returns (this w), w).

(** [await provider.m(...)]: the provider acts on its own state only, and
    the round trip is logged, with its error when it fails. *)
Definition await_provider `{TonCore} {S A} (c : ProviderCall)
    (m : S -> Completion Exn A * S) : Task S A :=
  fun w =>
    let '(r, s) := m (chain w) in
    (r, {| this := this w;
           chain := s;
           trips := trips w ++ [{| request := c; raised := thrown r |}] |}).

Module WalletContractV4.
Section Constructor.
Context `{TonCore}.

(** Lines 59-63: the wallet-instance identifier. *)
Definition resolveWalletId (workchain : Z) (walletId : Maybe Z) : Z :=
  match walletId with
  | Just id => id
  | Null | Undefined => 698983191 + workchain
  end.

(** Lines 66-71: [Cell.fromBoc(Buffer.from("...", "base64"))[0]]; indexing
    an empty array yields [undefined]. *)
Definition initialCode : Completion Exn (option Cell) :=
  roots ← Cell_fromBoc (Buffer_from_base64 walletCodeBoc);
  mret (roots !! 0%nat).

(** Lines 72-77: seqno 0, the wallet id, the public key, no plugins. *)
Definition initialData (walletId : Z) (publicKey : Buffer)
  : Completion Exn Cell :=
  b ← storeUint beginCell 0 32;
  b ← storeUint b walletId 32;
  b ← storeBuffer b publicKey;
  b ← storeBit b 0;
  endCell b.

(** [private constructor(workchain, publicKey, walletId?)] *)
Definition new (workchain : Z) (publicKey : Buffer) (walletId : Maybe Z)
  : Completion Exn WalletContractV4 :=
  let id := resolveWalletId workchain walletId in
  code ← initialCode;
  data ← initialData id publicKey;
  address ← contractAddress workchain code data;
  mret {| workchain := workchain;
          publicKey := publicKey;
          address := address;
          walletId := id;
          init := {| data := data; code := code |} |}.

(** The argument object of [create]. *)
Record CreateArgs : Type := {
  ca_workchain : Z;
  ca_publicKey : Buffer;
  ca_walletId : Maybe Z;
}.

(** [static create(args)] *)
Definition create (args : CreateArgs) : Completion Exn WalletContractV4 :=
  new (ca_workchain args) (ca_publicKey args) (ca_walletId args).
End Constructor.

(** [SenderArguments] of ["@ton/core"], and the argument of [sends]. *)
Record SenderArguments `{TonCore} : Type := {
  sa_value : Z;
  sa_to : Address;
  sa_sendMode : Maybe Z;
  sa_bounce : Maybe bool;
  sa_init : Maybe StateInit;
  sa_body : Maybe Cell;
}.

(** [Omit<SenderArguments, "sendMode">] *)
Record SenderMessage `{TonCore} : Type := {
  sm_value : Z;
  sm_to : Address;
  sm_bounce : Maybe bool;
  sm_init : Maybe StateInit;
  sm_body : Maybe Cell;
}.

Record SendsArguments `{TonCore} : Type := {
  ss_sendMode : Maybe Z;
  ss_msgs : list SenderMessage;
}.

(** What [sender] returns. *)
Record Sender `{TonCore} (S : Type) : Type := {
  Sender_send : SenderArguments -> Task S unit;
  Sender_sends : SendsArguments -> Task S unit;
}.
Arguments Sender_send {_ _} _ _.
Arguments Sender_sends {_ _} _ _.

Section Methods.
Context `{WalletSigning} {S : Type}.

(** [async getBalance(provider)] *)
Definition getBalance (provider : ContractProvider S) : Task S Z :=
  state ← await_provider CallGetState (getState provider);
  mret (balance state).

(** [async getSeqno(provider)] *)
Definition getSeqno (provider : ContractProvider S) : Task S Z :=
  st ← await_provider CallGetState (getState provider);
  if is_active (state st) then
    res ← await_provider (CallGet "seqno" []) (get provider "seqno" []);
    eval (readNumber (stack res))
  else
    mret 0.

(** [async send(provider, message)] *)
Definition send (provider : ContractProvider S) (message : Cell)
  : Task S unit :=
  await_provider (CallExternal message) (external provider message).

(** The object literal of [createTransfer]:
    [{ ...args, sendMode: args.sendMode ?? SendMode.PAY_GAS_SEPARATELY,
       walletId: this.walletId }] *)
Definition transferArgs (walletId : Z) (args : gmap string Value)
  : gmap string Value :=
  <["walletId" := VNumber walletId]>
    (<["sendMode" := nullish_or (prop args "sendMode")
                                (VNumber PAY_GAS_SEPARATELY)]> args).

(** [createTransfer(args)] *)
Definition createTransfer (args : gmap string Value) : Task S Cell :=
  w ← self;
  eval (createWalletTransferV4 (transferArgs (walletId w) args)).

(** [async sendTransfer(provider, args)] *)
Definition sendTransfer (provider : ContractProvider S)
    (args : gmap string Value) : Task S unit :=
  transfer ← createTransfer args;
  send provider transfer.

(** The object literal both functions of the sender pass to
    [createTransfer]: [{ seqno, secretKey, sendMode: args.sendMode,
    messages }]. *)
Definition senderTransferArgs (seqno : Z) (secretKey : Buffer)
    (sendMode : Maybe Z) (messages : list MessageRelaxed)
  : gmap string Value :=
  <["messages" := VMessages messages]>
    (<["sendMode" := of_maybe VNumber sendMode]>
       (<["secretKey" := VBuffer secretKey]>
          (<["seqno" := VNumber seqno]> ∅))).

(** [send: async (args) => ...] of the sender *)
Definition sender_send (provider : ContractProvider S) (secretKey : Buffer)
    (args : SenderArguments) : Task S unit :=
  seqno ← getSeqno provider;
  msg ← eval (internal {| ia_to := sa_to args;
                          ia_value := sa_value args;
                          ia_init := sa_init args;
                          ia_body := sa_body args;
                          ia_bounce := sa_bounce args |});
  transfer ← createTransfer
    (senderTransferArgs seqno secretKey (sa_sendMode args) [msg]);
  send provider transfer.

(** [sends: async (args) => ...] of the sender *)
Definition sender_sends (provider : ContractProvider S) (secretKey : Buffer)
    (args : SendsArguments) : Task S unit :=
  seqno ← getSeqno provider;
  messages ← eval (mapM (fun msg =>
                internal {| ia_to := sm_to msg;
                            ia_value := sm_value msg;
                            ia_init := sm_init msg;
                            ia_body := sm_body msg;
                            ia_bounce := sm_bounce msg |}) (ss_msgs args));
  transfer ← createTransfer
    (senderTransferArgs seqno secretKey (ss_sendMode args) messages);
  send provider transfer.

(** [sender(provider, secretKey)] *)
Definition sender (provider : ContractProvider S) (secretKey : Buffer)
  : Task S (Sender S) :=
  mret {| Sender_send := sender_send provider secretKey;
          Sender_sends := sender_sends provider secretKey |}.
End Methods.
End WalletContractV4.

Import WalletContractV4.

(** ** A small interpretation of the interfaces

    An instance of [TonCore] and [WalletSigning] to run the wallet on: cells
    are bit strings, the builder appends to one and checks ranges and the
    1023-bit limit, the parser of a bag of cells yields one root holding the
    buffer's bits, and the address of a contract is its workchain with the
    bits of its code and data (no hash).  The theorems below hold for every
    instance; this one serves the examples. *)
Module BitSDK.

Inductive Item : Type :=
  | TupleInt (value : Z)
  | TupleNull
  | TupleCell (cell : list bool).

(** The [n] low bits of [v], most significant first. *)
Fixpoint bits_be (n : nat) (v : Z) : list bool :=
  match n with
  | O => []
  | Datatypes.S n' => Z.testbit v (Z.of_nat n') :: bits_be n' v
  end.

Definition byte_bits (b : Byte.byte) : list bool :=
  bits_be 8 (Z.of_N (Byte.to_N b)).

Definition buffer_bits (buf : Buffer) : list bool :=
  concat (map byte_bits buf).

(** A cell holds at most 1023 bits. *)
Definition store (b : list bool) (more : list bool)
  : Completion string (list bool) :=
  if decide (length b + length more ≤ 1023)%nat
  then Returns (b ++ more)
  else Throws "BitBuilder overflow".

Definition store_uint (b : list bool) (value bits : Z)
  : Completion string (list bool) :=
  if decide (0 ≤ bits ∧ 0 ≤ value < 2 ^ bits)
  then store b (bits_be (Z.to_nat bits) value)
  else Throws "value is out of range".

Definition read_number (reader : list Item) : Completion string Z :=
  match reader with
  | [] => Throws "EOF"
  | TupleInt v :: _ => Returns v
  | _ :: _ => Throws "Not a number"
  end.

Global Instance core : TonCore := {|
  Exn := string;
  Cell := list bool;
  Address := Z * list bool;
  Builder := list bool;
  StateInit := option (list bool) * option (list bool);
  MessageRelaxed :=
    InternalArgs (Z * list bool) (list bool)
                 (option (list bool) * option (list bool));
  TupleItem := Item;
  TupleReader := list Item;
  Buffer_from_base64 := fun s => String.list_byte_of_string s;
  Cell_fromBoc := fun buf => Returns [buffer_bits buf];
  beginCell := [];
  storeUint := store_uint;
  storeBuffer := fun b buf => store b (buffer_bits buf);
  storeBit := fun b v => store b [negb (v =? 0)];
  endCell := fun b => Returns b;
  contractAddress := fun wc code data =>
    Returns (wc, default [] code ++ data);
  internal := fun a => Returns a;
  readNumber := read_number;
  PAY_GAS_SEPARATELY := 1;
|}.

Definition number_prop (o : gmap string Value) (k : string) : Z :=
  match prop o k with
  | VNumber n => n
  | _ => 0
  end.

(** The transfer is the wallet id, the seqno and the send mode; more than
    four messages are refused. *)
Global Instance signing : WalletSigning := {|
  createWalletTransferV4 := fun args =>
    match prop args "messages" with
    | VMessages ms =>
        if decide (length ms ≤ 4)%nat then
          b ← storeUint [] (number_prop args "walletId") 32;
          b ← storeUint b (number_prop args "seqno") 32;
          storeUint b (number_prop args "sendMode") 8
        else Throws "Maximum number of messages in a single transfer is 4"
    | _ => Throws "messages is not an array"
    end;
|}.

(** A ledger with one account: its state, the seqno its getter answers,
    and the external messages it has accepted. *)
Record Ledger : Type := {
  account : ContractState;
  seqno : Z;
  inbox : list (list bool);
  online : bool;
}.

Definition provider : ContractProvider Ledger := {|
  getState := fun l => (Returns (account l), l);
  get := fun name _ l =>
    if decide (name = "seqno")
    then (Returns {| stack := [TupleInt (seqno l)] |}, l)
    else (Throws "unknown method", l);
  external := fun message l =>
    if online l
    then (Returns (),
          {| account := account l; seqno := seqno l + 1;
             inbox := inbox l ++ [message]; online := online l |})
    else (Throws "network error", l);
|}.

Definition key : Buffer := [x01; x02; x03; x04].

Definition ledger (st : AccountState) (n : Z) (up : bool) : Ledger :=
  {| account := {| balance := 5000; state := st |};
     seqno := n; inbox := []; online := up |}.

Definition args0 : WalletContractV4.CreateArgs :=
  {| WalletContractV4.ca_workchain := 0;
     WalletContractV4.ca_publicKey := key;
     WalletContractV4.ca_walletId := Undefined |}.

(** The same arguments, written differently. *)
Definition args0' : WalletContractV4.CreateArgs :=
  {| WalletContractV4.ca_workchain := 5 - 5;
     WalletContractV4.ca_publicKey := [x01; x02] ++ [x03; x04];
     WalletContractV4.ca_walletId := Undefined |}.

Definition blank : WalletContractV4 :=
  {| workchain := 0; publicKey := []; address := (0, []); walletId := 0;
     init := {| data := []; code := None |} |}.

(** The wallet [create] builds from [args0] (see [wallet0_created]). *)
Definition wallet0 : WalletContractV4 :=
  match WalletContractV4.create args0 with
  | Returns w => w
  | Throws _ => blank
  end.

Definition world (l : Ledger) : World Ledger :=
  {| this := wallet0; chain := l; trips := [] |}.

(** An account not deployed yet; a deployed one at seqno 7; the same
    behind a provider that cannot submit. *)
Definition idle : World Ledger := world (ledger uninit 0 true).
Definition live : World Ledger := world (ledger (active None None) 7 true).
Definition offline : World Ledger :=
  world (ledger (active None None) 7 false).

(** The masterchain wallet that is given the basechain's default id. *)
Definition args1 : WalletContractV4.CreateArgs :=
  {| WalletContractV4.ca_workchain := -1;
     WalletContractV4.ca_publicKey := key;
     WalletContractV4.ca_walletId := Just 698983191 |}.

Definition wallet1 : WalletContractV4 :=
  match WalletContractV4.create args1 with
  | Returns w => w
  | Throws _ => blank
  end.

Definition pay (mode : Maybe Z) : WalletContractV4.SenderArguments :=
  {| WalletContractV4.sa_value := 1000;
     WalletContractV4.sa_to := (0, [true]);
     WalletContractV4.sa_sendMode := mode;
     WalletContractV4.sa_bounce := Undefined;
     WalletContractV4.sa_init := Undefined;
     WalletContractV4.sa_body := Undefined |}.

Definition item (value : Z) : WalletContractV4.SenderMessage :=
  {| WalletContractV4.sm_value := value;
     WalletContractV4.sm_to := (0, [true]);
     WalletContractV4.sm_bounce := Undefined;
     WalletContractV4.sm_init := Undefined;
     WalletContractV4.sm_body := Undefined |}.

Definition batch (values : list Z) : WalletContractV4.SendsArguments :=
  {| WalletContractV4.ss_sendMode := Undefined;
     WalletContractV4.ss_msgs := map item values |}.
End BitSDK.

(** ** An interpretation whose [internal] can throw

    As [BitSDK], but [internal] refuses a negative value, the builder signs
    nothing, and the provider knows one account that is not deployed. *)
Module StrictSDK.

Definition core : TonCore := {|
  Exn := string;
  Cell := list bool;
  Address := Z * list bool;
  Builder := list bool;
  StateInit := option (list bool) * option (list bool);
  MessageRelaxed :=
    InternalArgs (Z * list bool) (list bool)
                 (option (list bool) * option (list bool));
  TupleItem := BitSDK.Item;
  TupleReader := list BitSDK.Item;
  Buffer_from_base64 := fun s => String.list_byte_of_string s;
  Cell_fromBoc := fun buf => Returns [BitSDK.buffer_bits buf];
  beginCell := [];
  storeUint := BitSDK.store_uint;
  storeBuffer := fun b buf => BitSDK.store b (BitSDK.buffer_bits buf);
  storeBit := fun b v => BitSDK.store b [negb (v =? 0)];
  endCell := fun b => Returns b;
  contractAddress := fun wc code data =>
    Returns (wc, default [] code ++ data);
  internal := fun a =>
    if decide (ia_value a < 0)
    then Throws "negative value"
    else Returns a;
  readNumber := BitSDK.read_number;
  PAY_GAS_SEPARATELY := 1;
|}.

Definition signing : @WalletSigning core :=
  @Build_WalletSigning core (fun _ => Returns []).

Definition provider : @ContractProvider core unit :=
  @Build_ContractProvider core unit
    (fun u => (Returns {| balance := 0; state := uninit |}, u))
    (fun _ _ u => (Throws "not deployed", u))
    (fun _ u => (Returns (), u)).

(** A wallet object: workchain, key, address, id, init. *)
Definition wallet : @WalletContractV4 core :=
  @Build_WalletContractV4 core 0 BitSDK.key (0, []) 698983191
    (@Build_Init core [] None).

Definition world : @World core unit :=
  @Build_World core unit wallet () [].

(** A message of the given value: value, destination, bounce, init, body. *)
Definition item (value : Z) : @WalletContractV4.SenderMessage core :=
  @WalletContractV4.Build_SenderMessage core value (0, [true])
    Undefined Undefined Undefined.

Definition batch (values : list Z)
  : @WalletContractV4.SendsArguments core :=
  @WalletContractV4.Build_SendsArguments core Undefined (map item values).
End StrictSDK.

(** ** What a task did

    [round_trips t w]: the round trips [t] adds to the log when run in [w]. *)
Definition round_trips `{TonCore} {S A} (t : Task S A) (w : World S)
  : list RoundTrip :=
  drop (length (trips w)) (trips (t w).2).

(** The world after one round trip: the provider's new state and one more
    entry in the log. *)
Definition after `{TonCore} {S} (w : World S) (c : ProviderCall)
    (err : option Exn) (s : S) : World S :=
  {| this := this w; chain := s;
     trips := trips w ++ [{| request := c; raised := err |}] |}.

(** The wallet object of [w'] has the fields of the one of [w]. *)
Definition same_fields `{TonCore} {S} (w w' : World S) : Prop :=
  workchain (this w') = workchain (this w)
  ∧ publicKey (this w') = publicKey (this w)
  ∧ walletId (this w') = walletId (this w)
  ∧ init (this w') = init (this w)
  ∧ address (this w') = address (this w).

(** [propagates t w]: whatever error a round trip of [t] raised in [w] is
    what [t] completes with, and the wallet object is as it was. *)
Definition propagates `{TonCore} {S A} (t : Task S A) (w : World S) : Prop :=
  ∀ rt e, rt ∈ round_trips t w → raised rt = Some e →
          (t w).1 = Throws e ∧ same_fields w (t w).2.

(** The messages handed to [provider.external] in a stretch of the log. *)
Definition submitted `{TonCore} (l : list RoundTrip) : list Cell :=
  omap (fun rt => match request rt with
                  | CallExternal message => Some message
                  | _ => None
                  end) l.

(** What the sender's [send] passes to [internal], and what its [sends]
    passes for one message. *)
Definition internalOfArgs `{TonCore} (args : SenderArguments)
  : InternalArgs Address Cell StateInit :=
  {| ia_to := sa_to args; ia_value := sa_value args;
     ia_init := sa_init args; ia_body := sa_body args;
     ia_bounce := sa_bounce args |}.

Definition internalOfMessage `{TonCore} (msg : SenderMessage)
  : InternalArgs Address Cell StateInit :=
  {| ia_to := sm_to msg; ia_value := sm_value msg;
     ia_init := sm_init msg; ia_body := sm_body msg;
     ia_bounce := sm_bounce msg |}.

(** The transfer the [send] of the sender of the wallet with id [id] builds
    once it has read [seqno], and the one its [sends] builds (see
    [sender_send_steps] and [sender_sends_steps]). *)
Definition sendTransferOf `{WalletSigning} (id : Z) (secretKey : Buffer)
    (args : SenderArguments) (seqno : Z) : Completion Exn Cell :=
  msg ← internal (internalOfArgs args);
  createWalletTransferV4
    (transferArgs id
       (senderTransferArgs seqno secretKey (sa_sendMode args) [msg])).

Definition sendsTransferOf `{WalletSigning} (id : Z) (secretKey : Buffer)
    (args : SendsArguments) (seqno : Z) : Completion Exn Cell :=
  messages ← mapM (fun msg => internal (internalOfMessage msg))
                  (ss_msgs args);
  createWalletTransferV4
    (transferArgs id
       (senderTransferArgs seqno secretKey (ss_sendMode args) messages)).

(** The seqno as the chain has it, told by the provider's methods alone (a
    specification to hold the code against, not a part of it):
    [getState], then the getter ["seqno"] when the account is active.  It
    gives the seqno or the error, the provider's state afterwards, and the
    round trips made. *)
Definition seqno_on_chain `{TonCore} {S} (provider : ContractProvider S)
    (s : S) : Completion Exn Z * S * list RoundTrip :=
  match getState provider s with
  | (Throws e, s1) =>
      (Throws e, s1, [{| request := CallGetState; raised := Some e |}])
  | (Returns st, s1) =>
      if is_active (state st) then
        match get provider "seqno" [] s1 with
        | (Throws e, s2) =>
            (Throws e, s2,
             [{| request := CallGetState; raised := None |};
              {| request := CallGet "seqno" []; raised := Some e |}])
        | (Returns res, s2) =>
            (readNumber (stack res), s2,
             [{| request := CallGetState; raised := None |};
              {| request := CallGet "seqno" []; raised := None |}])
        end
      else (Returns 0, s1, [{| request := CallGetState; raised := None |}])
  end.

(** [reads_seqno_first provider t transferOf w]: what [t] does in [w], told
    by the provider's methods and the log.  [t] first reads the seqno from
    the chain; if that fails, or [transferOf] of the seqno read cannot be
    built, [t] throws that error and the log holds the reading only;
    otherwise [t] calls [provider.external] with [transferOf] of the seqno
    read, completes as that call does, and the log holds the reading and
    then this one submission. *)
Definition reads_seqno_first `{TonCore} {S}
    (provider : ContractProvider S) (t : Task S unit)
    (transferOf : Z → Completion Exn Cell) (w : World S) : Prop :=
  let '(r, s, reads) := seqno_on_chain provider (chain w) in
  let w1 := {| this := this w; chain := s; trips := trips w ++ reads |} in
  match r with
  | Throws e => t w = (Throws e, w1)
  | Returns seqno =>
      match transferOf seqno with
      | Throws e => t w = (Throws e, w1)
      | Returns transfer =>
          let '(r', s') := external provider transfer s in
          t w = (r', {| this := this w; chain := s';
                        trips := trips w ++ reads
                                 ++ [{| request := CallExternal transfer;
                                        raised := thrown r' |}] |})
          ∧ round_trips t w
              = reads ++ [{| request := CallExternal transfer;
                             raised := thrown r' |}]
          ∧ submitted (round_trips t w) = [transfer]
      end
  end.

(** [runs n t]: run in any world, [t] leaves the wallet object as it was,
    only appends to the log, at most [n] round trips, and completes with the
    error of any round trip that raised one. *)
Definition runs `{TonCore} {S A} (n : nat) (t : Task S A) : Prop :=
  ∀ w, this (t w).2 = this w
       ∧ ∃ l, trips (t w).2 = trips w ++ l
              ∧ (length l ≤ n)%nat
              ∧ ∀ rt e, rt ∈ l → raised rt = Some e → (t w).1 = Throws e.

Section Tasks.
Context `{TonCore} {S : Type}.

Lemma bind_unfold {A B} (t : Task S A) (k : A → Task S B) w :
  (t ≫= k) w = match t w with
               | (Returns a, w') => k a w'
               | (Throws e, w') => (Throws e, w')
               end.
Proof. reflexivity. Qed.

Lemma runs_ret {A} (a : A) : runs 0 (mret a : Task S A).
Proof.
  intros w. split; [done|]. exists []. simpl. rewrite app_nil_r.
  split_and!; [done|done|]. intros rt e Hin. by apply elem_of_nil in Hin.
Qed.

Lemma runs_eval {A} (c : Completion Exn A) : runs 0 (eval c : Task S A).
Proof.
  intros w. split; [done|]. exists []. simpl. rewrite app_nil_r.
  split_and!; [done|done|]. intros rt e Hin. by apply elem_of_nil in Hin.
Qed.

Lemma runs_self : runs 0 (self : Task S WalletContractV4).
Proof.
  intros w. split; [done|]. exists []. simpl. rewrite app_nil_r.
  split_and!; [done|done|]. intros rt e Hin. by apply elem_of_nil in Hin.
Qed.

Lemma runs_await {A} c (m : S → Completion Exn A * S) :
  runs 1 (await_provider c m).
Proof.
  intros w. unfold await_provider. destruct (m (chain w)) as [r s] eqn:Hm.
  simpl. split; [done|].
  exists [{| request := c; raised := thrown r |}].
  split_and!; [done|done|].
  intros rt e Hin Hr. apply list_elem_of_singleton in Hin. subst rt.
  destruct r; simpl in Hr; by simplify_eq.
Qed.

Lemma runs_bind {A B} n m (t : Task S A) (k : A → Task S B) :
  runs n t → (∀ a, runs m (k a)) → runs (n + m) (t ≫= k).
Proof.
  intros Ht Hk w. rewrite bind_unfold.
  destruct (Ht w) as (Hthis & l & Hl & Hn & Herr).
  destruct (t w) as [[a|e] w'] eqn:Htw; simpl in *.
  - destruct (Hk a w') as (Hthis' & l' & Hl' & Hm & Herr').
    split; [congruence|]. exists (l ++ l').
    split_and!.
    + by rewrite Hl', Hl, app_assoc.
    + rewrite length_app. lia.
    + intros rt e [Hin|Hin]%elem_of_app Hr; [|by eauto].
      by specialize (Herr rt e Hin Hr).
  - split; [done|]. exists l. split_and!; [done|lia|].
    intros rt e' Hin Hr. specialize (Herr rt e' Hin Hr). congruence.
Qed.

Lemma runs_mono {A} n m (t : Task S A) : (n ≤ m)%nat → runs n t → runs m t.
Proof.
  intros Hnm Ht w. destruct (Ht w) as (Hthis & l & Hl & Hn & Herr).
  split; [done|]. exists l. split_and!; [done|lia|done].
Qed.

Lemma runs_round_trips {A} n (t : Task S A) w :
  runs n t → trips (t w).2 = trips w ++ round_trips t w.
Proof.
  intros Ht. destruct (Ht w) as (_ & l & Hl & _). unfold round_trips.
  by rewrite Hl, drop_app_length.
Qed.

Lemma round_trips_app {A} (t : Task S A) w l :
  trips (t w).2 = trips w ++ l → round_trips t w = l.
Proof. intros Hl. unfold round_trips. by rewrite Hl, drop_app_length. Qed.

Lemma runs_length {A} n (t : Task S A) w :
  runs n t → (length (round_trips t w) ≤ n)%nat.
Proof.
  intros Ht. destruct (Ht w) as (_ & l & Hl & Hn & _).
  by rewrite (round_trips_app _ _ _ Hl).
Qed.

Lemma runs_same_fields {A} n (t : Task S A) w :
  runs n t → same_fields w (t w).2.
Proof.
  intros Ht. destruct (Ht w) as (Hthis & _). unfold same_fields.
  by rewrite Hthis.
Qed.

Lemma runs_propagates {A} n (t : Task S A) w : runs n t → propagates t w.
Proof.
  intros Ht rt e Hin Hr. split; [|by eapply runs_same_fields].
  destruct (Ht w) as (_ & l & Hl & _ & Herr).
  rewrite (round_trips_app _ _ _ Hl) in Hin. eauto.
Qed.
End Tasks.

Section Methods.
Context `{WalletSigning} {S : Type}.
Implicit Types (provider : ContractProvider S) (w : World S).

Lemma runs_getBalance provider : runs 1 (getBalance provider).
Proof.
  unfold getBalance. apply (runs_bind 1 0); [apply runs_await|].
  intros st. apply runs_ret.
Qed.

Lemma runs_getSeqno provider : runs 2 (getSeqno provider).
Proof.
  unfold getSeqno. apply (runs_bind 1 1); [apply runs_await|].
  intros st. destruct (is_active (state st)).
  - apply (runs_bind 1 0); [apply runs_await|]. intros res. apply runs_eval.
  - apply (runs_mono 0); [lia|apply runs_ret].
Qed.

Lemma runs_send provider message : runs 1 (send provider message).
Proof. apply runs_await. Qed.

Lemma runs_createTransfer args : runs 0 (createTransfer args : Task S Cell).
Proof.
  unfold createTransfer. apply (runs_bind 0 0); [apply runs_self|].
  intros self. apply runs_eval.
Qed.

Lemma runs_sendTransfer provider args : runs 1 (sendTransfer provider args).
Proof.
  unfold sendTransfer. apply (runs_bind 0 1); [apply runs_createTransfer|].
  intros transfer. apply runs_send.
Qed.

Lemma runs_sender_send provider secretKey args :
  runs 3 (sender_send provider secretKey args).
Proof.
  unfold sender_send. apply (runs_bind 2 1); [apply runs_getSeqno|].
  intros seqno. apply (runs_bind 0 1); [apply runs_eval|].
  intros msg. apply (runs_bind 0 1); [apply runs_createTransfer|].
  intros transfer. apply runs_send.
Qed.

Lemma runs_sender_sends provider secretKey args :
  runs 3 (sender_sends provider secretKey args).
Proof.
  unfold sender_sends. apply (runs_bind 2 1); [apply runs_getSeqno|].
  intros seqno. apply (runs_bind 0 1); [apply runs_eval|].
  intros msgs. apply (runs_bind 0 1); [apply runs_createTransfer|].
  intros transfer. apply runs_send.
Qed.

Lemma runs_sender provider secretKey : runs 0 (sender provider secretKey).
Proof. apply runs_ret. Qed.
End Methods.

(** ** The steps of the operations *)

Section Steps.
Context `{WalletSigning} {S : Type}.
Implicit Types (provider : ContractProvider S) (w : World S).

Lemma getSeqno_steps provider w :
  getSeqno provider w =
    match getState provider (chain w) with
    | (Throws e, s) => (Throws e, after w CallGetState (Some e) s)
    | (Returns st, s) =>
        let w1 := after w CallGetState None s in
        if is_active (state st) then
          match get provider "seqno" [] s with
          | (Throws e, s') =>
              (Throws e, after w1 (CallGet "seqno" []) (Some e) s')
          | (Returns res, s') =>
              (readNumber (stack res),
               after w1 (CallGet "seqno" []) None s')
          end
        else (Returns 0, w1)
    end.
Proof.
  unfold getSeqno. rewrite bind_unfold. unfold await_provider.
  destruct (getState provider (chain w)) as [[st|e] s]; simpl; [|done].
  destruct (is_active (state st)); [|done].
  rewrite bind_unfold. simpl.
  by destruct (get provider "seqno" [] s) as [[res|e] s'].
Qed.

Lemma getSeqno_round_trips provider w :
  round_trips (getSeqno provider) w =
    match getState provider (chain w) with
    | (Throws e, _) => [{| request := CallGetState; raised := Some e |}]
    | (Returns st, s) =>
        {| request := CallGetState; raised := None |}
        :: if is_active (state st)
           then [{| request := CallGet "seqno" [];
                    raised := thrown (get provider "seqno" [] s).1 |}]
           else []
    end.
Proof.
  apply round_trips_app. rewrite getSeqno_steps.
  destruct (getState provider (chain w)) as [[st|e] s]; simpl; [|done].
  destruct (is_active (state st)); [|done].
  destruct (get provider "seqno" [] s) as [[res|e] s']; simpl;
    by rewrite <- app_assoc.
Qed.

Lemma getSeqno_requests provider w rt :
  rt ∈ round_trips (getSeqno provider) w →
  request rt = CallGetState ∨ request rt = CallGet "seqno" [].
Proof.
  rewrite getSeqno_round_trips.
  destruct (getState provider (chain w)) as [[st|e] s].
  - destruct (is_active (state st)).
    + intros [->|[->|[]%elem_of_nil]%elem_of_cons]%elem_of_cons; auto.
    + intros [->|[]%elem_of_nil]%elem_of_cons; auto.
  - intros [->|[]%elem_of_nil]%elem_of_cons; auto.
Qed.

Lemma submitted_app (l1 l2 : list RoundTrip) :
  submitted (l1 ++ l2) = submitted l1 ++ submitted l2.
Proof. apply omap_app. Qed.

Lemma getSeqno_submits_nothing provider w :
  submitted (round_trips (getSeqno provider) w) = [].
Proof.
  rewrite getSeqno_round_trips.
  destruct (getState provider (chain w)) as [[st|e] s]; [|done].
  by destruct (is_active (state st)).
Qed.

Lemma sender_send_steps provider secretKey args w :
  sender_send provider secretKey args w =
    match getSeqno provider w with
    | (Throws e, w1) => (Throws e, w1)
    | (Returns seqno, w1) =>
        match sendTransferOf (walletId (this w)) secretKey args seqno with
        | Throws e => (Throws e, w1)
        | Returns transfer => send provider transfer w1
        end
    end.
Proof.
  unfold sender_send, sendTransferOf. rewrite bind_unfold.
  pose proof (runs_same_fields 2 _ w (runs_getSeqno provider))
    as (_ & _ & Hid & _).
  destruct (getSeqno provider w) as [[seqno|e] w1]; [|done].
  simpl in Hid. rewrite bind_unfold. unfold eval at 1.
  unfold mbind at 2, Completion_bind, cbind.
  unfold internalOfArgs.
  destruct (internal _) as [msg|e]; [|done].
  unfold createTransfer. rewrite !bind_unfold. simpl. rewrite Hid.
  by destruct (createWalletTransferV4 _).
Qed.

Lemma sender_sends_steps provider secretKey args w :
  sender_sends provider secretKey args w =
    match getSeqno provider w with
    | (Throws e, w1) => (Throws e, w1)
    | (Returns seqno, w1) =>
        match sendsTransferOf (walletId (this w)) secretKey args seqno with
        | Throws e => (Throws e, w1)
        | Returns transfer => send provider transfer w1
        end
    end.
Proof.
  unfold sender_sends, sendsTransferOf. rewrite bind_unfold.
  pose proof (runs_same_fields 2 _ w (runs_getSeqno provider))
    as (_ & _ & Hid & _).
  destruct (getSeqno provider w) as [[seqno|e] w1]; [|done].
  simpl in Hid. rewrite bind_unfold. unfold eval at 1.
  unfold mbind at 2, Completion_bind, cbind.
  unfold internalOfMessage.
  destruct (mapM _ _) as [messages|e]; [|done].
  unfold createTransfer. rewrite !bind_unfold. simpl. rewrite Hid.
  by destruct (createWalletTransferV4 _).
Qed.

(** The round trips of a task that reads the seqno, builds the transfer
    from it and sends it. *)
Lemma seqno_then_send_trips provider (t : Task S unit) transferOf w :
  t w = match getSeqno provider w with
        | (Throws e, w1) => (Throws e, w1)
        | (Returns seqno, w1) =>
            match transferOf seqno with
            | Throws e => (Throws e, w1)
            | Returns transfer => send provider transfer w1
            end
        end →
  round_trips t w =
    round_trips (getSeqno provider) w
    ++ match getSeqno provider w with
       | (Returns seqno, w1) =>
           match transferOf seqno with
           | Returns transfer =>
               [{| request := CallExternal transfer;
                   raised := thrown
                     (external provider transfer (chain w1)).1 |}]
           | Throws _ => []
           end
       | (Throws _, _) => []
       end.
Proof.
  intros Ht.
  pose proof (runs_round_trips 2 _ w (runs_getSeqno provider)) as Hg.
  apply round_trips_app. rewrite Ht.
  destruct (getSeqno provider w) as [[seqno|e] w1]; simpl in Hg.
  - destruct (transferOf seqno) as [transfer|e].
    + unfold send, await_provider.
      destruct (external provider transfer (chain w1)) as [r s]. simpl.
      by rewrite Hg, app_assoc.
    + by rewrite app_nil_r.
  - by rewrite app_nil_r.
Qed.

Lemma getSeqno_on_chain provider w :
  getSeqno provider w =
    let '(r, s, reads) := seqno_on_chain provider (chain w) in
    (r, {| this := this w; chain := s; trips := trips w ++ reads |}).
Proof.
  rewrite getSeqno_steps. unfold seqno_on_chain, after.
  destruct (getState provider (chain w)) as [[st|e] s]; simpl; [|done].
  destruct (is_active (state st)); [|done].
  destruct (get provider "seqno" [] s) as [[res|e] s']; simpl;
    by rewrite <- app_assoc.
Qed.

Lemma seqno_on_chain_submits_nothing provider (s : S) :
  submitted (seqno_on_chain provider s).2 = [].
Proof.
  unfold seqno_on_chain.
  destruct (getState provider s) as [[st|e] s1]; [|done].
  destruct (is_active (state st)); [|done].
  by destruct (get provider "seqno" [] s1) as [[res|e] s2].
Qed.

(** A task that reads the seqno, builds the transfer from it and sends it
    reads the seqno first and submits that transfer. *)
Lemma seqno_then_submit provider (t : Task S unit) transferOf w :
  t w = match getSeqno provider w with
        | (Throws e, w1) => (Throws e, w1)
        | (Returns seqno, w1) =>
            match transferOf seqno with
            | Throws e => (Throws e, w1)
            | Returns transfer => send provider transfer w1
            end
        end →
  reads_seqno_first provider t transferOf w.
Proof.
  rewrite getSeqno_on_chain. unfold reads_seqno_first.
  pose proof (seqno_on_chain_submits_nothing provider (chain w)) as Hnone.
  destruct (seqno_on_chain provider (chain w)) as [[r s] reads].
  simpl in Hnone. destruct r as [seqno|e]; [|done].
  destruct (transferOf seqno) as [transfer|e]; [|done].
  unfold send, await_provider. simpl.
  destruct (external provider transfer s) as [r' s']. intros Ht.
  assert (trips (t w).2
          = trips w ++ reads ++ [{| request := CallExternal transfer;
                                    raised := thrown r' |}]) as Hl.
  { rewrite Ht. simpl. by rewrite app_assoc. }
  split_and!.
  - rewrite Ht. by rewrite app_assoc.
  - by apply round_trips_app.
  - rewrite (round_trips_app _ _ _ Hl), submitted_app, Hnone. done.
Qed.

(** The log of such a task: the reading, then the submission when the
    transfer is built. *)
Lemma seqno_then_send_log provider (t : Task S unit) transferOf w :
  t w = match getSeqno provider w with
        | (Throws e, w1) => (Throws e, w1)
        | (Returns seqno, w1) =>
            match transferOf seqno with
            | Throws e => (Throws e, w1)
            | Returns transfer => send provider transfer w1
            end
        end →
  round_trips t w =
    let '(r, s, reads) := seqno_on_chain provider (chain w) in
    reads ++ match r with
             | Returns seqno =>
                 match transferOf seqno with
                 | Returns transfer =>
                     [{| request := CallExternal transfer;
                         raised := thrown
                           (external provider transfer s).1 |}]
                 | Throws _ => []
                 end
             | Throws _ => []
             end.
Proof.
  rewrite getSeqno_on_chain. intros Ht. apply round_trips_app. rewrite Ht.
  destruct (seqno_on_chain provider (chain w)) as [[r s] reads].
  destruct r as [seqno|e]; [|by rewrite app_nil_r].
  destruct (transferOf seqno) as [transfer|e]; [|by rewrite app_nil_r].
  unfold send, await_provider. simpl.
  destruct (external provider transfer s) as [r' s']. simpl.
  by rewrite app_assoc.
Qed.
End Steps.

(** ** Construction *)

Section Construction.
Context `{TonCore}.

(** The constructor throws only what the SDK throws, and otherwise returns
    the object whose fields are the arguments and the derived cells. *)
Lemma new_returns workchain publicKey walletId w :
  new workchain publicKey walletId = Returns w ↔
  ∃ c d a,
    initialCode = Returns c
    ∧ initialData (resolveWalletId workchain walletId) publicKey = Returns d
    ∧ contractAddress workchain c d = Returns a
    ∧ w = {| workchain := workchain; publicKey := publicKey; address := a;
             walletId := resolveWalletId workchain walletId;
             init := {| data := d; code := c |} |}.
Proof.
  unfold new, mbind, Completion_bind, cbind, mret, Completion_ret. split.
  - destruct initialCode as [c|e]; [|done].
    destruct (initialData _ _) as [d|e] eqn:Hd; [|done].
    destruct (contractAddress _ _ _) as [a|e] eqn:Ha; [|done].
    intros [= <-]. by exists c, d, a.
  - intros (c & d & a & -> & -> & Ha & ->). by rewrite Ha.
Qed.

(** C1. Deriving the initial state and the address is deterministic: two
    calls of [create] (which is the constructor) with equal workchain,
    equal public-key bytes and equal walletId argument complete alike,
    and when they return wallets, these have equal [init.code], equal
    [init.data] and equal [address]. *)
Theorem create_deterministic (a1 a2 : CreateArgs) :
  ca_workchain a1 = ca_workchain a2 →
  ca_publicKey a1 = ca_publicKey a2 →
  ca_walletId a1 = ca_walletId a2 →
  create a1 = new (ca_workchain a1) (ca_publicKey a1) (ca_walletId a1)
  ∧ create a1 = create a2
  ∧ ∀ w1 w2, create a1 = Returns w1 → create a2 = Returns w2 →
      code (init w1) = code (init w2)
      ∧ data (init w1) = data (init w2)
      ∧ address w1 = address w2.
Proof.
  intros Hwc Hpk Hid. split; [done|].
  assert (create a1 = create a2) as Heq.
  { unfold create. by rewrite Hwc, Hpk, Hid. }
  split; [done|]. intros w1 w2 H1 H2.
  rewrite Heq, H2 in H1. by injection H1 as ->.
Qed.

(** C8. When the walletId argument of [create] (or of the constructor) is
    [null] or [undefined], the wallet's [walletId] is
    [698983191 + workchain]; otherwise it is the given value. *)
Theorem create_walletId (args : CreateArgs) (w : WalletContractV4) :
  create args = Returns w →
  walletId w = match ca_walletId args with
               | Just id => id
               | Null | Undefined => 698983191 + ca_workchain args
               end.
Proof.
  unfold create. intros (c & d & a & _ & _ & _ & ->)%new_returns. simpl.
  by destruct (ca_walletId args).
Qed.
End Construction.

(** The wallet of the examples is built by [create]. *)
Example wallet0_created : create BitSDK.args0 = Returns BitSDK.wallet0.
Proof. by vm_compute. Qed.

Lemma create_deterministic_witness :
  (ca_workchain BitSDK.args0 = ca_workchain BitSDK.args0'
   ∧ ca_publicKey BitSDK.args0 = ca_publicKey BitSDK.args0'
   ∧ ca_walletId BitSDK.args0 = ca_walletId BitSDK.args0')
  ∧ create BitSDK.args0 = create BitSDK.args0'
  ∧ ∀ w1 w2,
      create BitSDK.args0 = Returns w1 → create BitSDK.args0' = Returns w2 →
      code (init w1) = code (init w2)
      ∧ data (init w1) = data (init w2)
      ∧ address w1 = address w2.
Proof.
  split; [split_and!; reflexivity|].
  apply (create_deterministic BitSDK.args0 BitSDK.args0'); reflexivity.
Defined.

Lemma create_walletId_witness :
  create BitSDK.args0 = Returns BitSDK.wallet0
  ∧ walletId BitSDK.wallet0 = 698983191 + 0.
Proof.
  split; [exact wallet0_created|].
  apply (create_walletId BitSDK.args0 BitSDK.wallet0). exact wallet0_created.
Defined.

(** ** The passthrough operations *)

Section Operations.
Context `{WalletSigning} {S : Type}.
Implicit Types (provider : ContractProvider S) (w : World S).

(** C4. [getBalance(provider)] returns the [balance] field of the state
    [provider.getState()] returns, as it is, and makes no other call to
    the provider: the one round trip of the call is that [getState]. *)
Theorem getBalance_passthrough provider w :
  getBalance provider w =
    match getState provider (chain w) with
    | (Returns st, s) => (Returns (balance st), after w CallGetState None s)
    | (Throws e, s) => (Throws e, after w CallGetState (Some e) s)
    end
  ∧ round_trips (getBalance provider) w =
      [{| request := CallGetState;
          raised := thrown (getState provider (chain w)).1 |}].
Proof.
  assert (getBalance provider w =
    match getState provider (chain w) with
    | (Returns st, s) => (Returns (balance st), after w CallGetState None s)
    | (Throws e, s) => (Throws e, after w CallGetState (Some e) s)
    end) as Heq.
  { unfold getBalance. rewrite bind_unfold. unfold await_provider.
    by destruct (getState provider (chain w)) as [[st|e] s]. }
  split; [done|]. apply round_trips_app. rewrite Heq.
  by destruct (getState provider (chain w)) as [[st|e] s].
Qed.

(** C5. [send(provider, message)] hands the given cell, unchanged, to
    [provider.external] and does nothing else; [sendTransfer(provider,
    args)] is [createTransfer(args)] followed by [send] of its cell. *)
Theorem send_passthrough provider w :
  (∀ message,
     send provider message w =
       let '(r, s) := external provider message (chain w) in
       (r, after w (CallExternal message) (thrown r) s))
  ∧ (∀ args,
       sendTransfer provider args w =
         (transfer ← createTransfer args; send provider transfer) w
       ∧ sendTransfer provider args w =
           match createWalletTransferV4
                   (transferArgs (walletId (this w)) args) with
           | Returns transfer => send provider transfer w
           | Throws e => (Throws e, w)
           end).
Proof.
  split; [done|]. intros args. split; [done|].
  unfold sendTransfer, createTransfer. rewrite !bind_unfold. simpl.
  by destruct (createWalletTransferV4 _).
Qed.

(** C9. [getSeqno(provider)] asks [provider.getState()]; when the state's
    type is not ["active"] it returns 0 and does not call the getter; when
    it is ["active"] it calls [provider.get("seqno", [])] and returns the
    first number read from the result's stack. *)
Theorem getSeqno_spec provider w st s :
  getState provider (chain w) = (Returns st, s) →
  (is_active (state st) = false →
     getSeqno provider w = (Returns 0, after w CallGetState None s))
  ∧ (is_active (state st) = true →
       getSeqno provider w =
         let '(r, s') := get provider "seqno" [] s in
         (res ← r; readNumber (stack res),
          after (after w CallGetState None s)
                (CallGet "seqno" []) (thrown r) s')).
Proof.
  intros Hst. unfold getSeqno. rewrite bind_unfold. unfold await_provider.
  rewrite Hst. simpl. split; intros ->; [done|].
  rewrite bind_unfold. simpl.
  by destruct (get provider "seqno" [] s) as [[res|e] s'].
Qed.

(** C10. [createTransfer(args)] passes [args] on to the transfer builder
    with [sendMode] replaced by [SendMode.PAY_GAS_SEPARATELY] when
    [args.sendMode] is [null] or [undefined] (kept otherwise), with
    [walletId] set to the wallet's own, whatever [args] holds, and with
    every other property as in [args]. *)
Theorem createTransfer_forwards (args : gmap string Value) w :
  ∃ obj : gmap string Value,
    createTransfer args w = (createWalletTransferV4 obj, w)
    ∧ obj !! "sendMode" =
        Some match args !! "sendMode" with
             | None | Some VUndefined | Some VNull =>
                 VNumber PAY_GAS_SEPARATELY
             | Some mode => mode
             end
    ∧ obj !! "walletId" = Some (VNumber (walletId (this w)))
    ∧ ∀ k, k ≠ "sendMode" → k ≠ "walletId" → obj !! k = args !! k.
Proof.
  exists (transferArgs (walletId (this w)) args). unfold transferArgs.
  split_and!.
  - done.
  - rewrite lookup_insert_ne by done. rewrite lookup_insert_eq.
    unfold prop. by destruct (args !! "sendMode") as [[]|].
  - by rewrite lookup_insert_eq.
  - intros k Hk1 Hk2. by rewrite !lookup_insert_ne.
Qed.
End Operations.

(** ** Round trips, errors and the wallet's fields *)

Section Effects.
Context `{WalletSigning} {S : Type}.
Implicit Types (provider : ContractProvider S) (w : World S).

(** C6, as the code has it.  [getBalance] makes exactly one round trip,
    [getState]; [send] exactly one, [external] of its message;
    [sendTransfer] at most one, [external] of the transfer built, and none
    when the builder throws; [getSeqno] makes [getState] and then, exactly
    when that returns an active account, the getter ["seqno"]: one or two;
    the [send] and [sends] of a sender make the round trips of reading the
    seqno and then, when the transfer is built, its submission: at most
    three. *)
Theorem round_trips_bounded provider w :
  round_trips (getBalance provider) w
    = [{| request := CallGetState;
          raised := thrown (getState provider (chain w)).1 |}]
  ∧ (∀ message,
       round_trips (send provider message) w
         = [{| request := CallExternal message;
               raised := thrown (external provider message (chain w)).1 |}])
  ∧ (∀ args,
       round_trips (sendTransfer provider args) w =
         match createWalletTransferV4
                 (transferArgs (walletId (this w)) args) with
         | Returns transfer =>
             [{| request := CallExternal transfer;
                 raised := thrown
                   (external provider transfer (chain w)).1 |}]
         | Throws _ => []
         end)
  ∧ round_trips (getSeqno provider) w =
      match getState provider (chain w) with
      | (Throws e, _) => [{| request := CallGetState; raised := Some e |}]
      | (Returns st, s) =>
          {| request := CallGetState; raised := None |}
          :: if is_active (state st)
             then [{| request := CallGet "seqno" [];
                      raised := thrown (get provider "seqno" [] s).1 |}]
             else []
      end
  ∧ (∀ secretKey args,
       round_trips (sender_send provider secretKey args) w =
         let '(r, s, reads) := seqno_on_chain provider (chain w) in
         reads ++ match r with
                  | Returns seqno =>
                      match sendTransferOf (walletId (this w)) secretKey
                                           args seqno with
                      | Returns transfer =>
                          [{| request := CallExternal transfer;
                              raised := thrown
                                (external provider transfer s).1 |}]
                      | Throws _ => []
                      end
                  | Throws _ => []
                  end)
  ∧ (∀ secretKey args,
       round_trips (sender_sends provider secretKey args) w =
         let '(r, s, reads) := seqno_on_chain provider (chain w) in
         reads ++ match r with
                  | Returns seqno =>
                      match sendsTransferOf (walletId (this w)) secretKey
                                            args seqno with
                      | Returns transfer =>
                          [{| request := CallExternal transfer;
                              raised := thrown
                                (external provider transfer s).1 |}]
                      | Throws _ => []
                      end
                  | Throws _ => []
                  end)
  ∧ length (round_trips (getBalance provider) w) = 1%nat
  ∧ (∀ message, length (round_trips (send provider message) w) = 1%nat)
  ∧ (∀ args, (length (round_trips (sendTransfer provider args) w) ≤ 1)%nat)
  ∧ length (round_trips (getSeqno provider) w) =
      match getState provider (chain w) with
      | (Returns st, _) => if is_active (state st) then 2%nat else 1%nat
      | (Throws _, _) => 1%nat
      end
  ∧ (∀ secretKey args,
       (length (round_trips (sender_send provider secretKey args) w) ≤ 3)%nat)
  ∧ (∀ secretKey args,
       (length (round_trips (sender_sends provider secretKey args) w) ≤ 3)%nat).
Proof.
  assert (round_trips (getBalance provider) w
          = [{| request := CallGetState;
                raised := thrown (getState provider (chain w)).1 |}]) as Hb.
  { apply round_trips_app. unfold getBalance. rewrite bind_unfold.
    unfold await_provider.
    by destruct (getState provider (chain w)) as [[st|e] s]. }
  assert (∀ message,
    round_trips (send provider message) w
      = [{| request := CallExternal message;
            raised := thrown (external provider message (chain w)).1 |}])
    as Hs.
  { intros message. apply round_trips_app. unfold send, await_provider.
    by destruct (external provider message (chain w)) as [r s]. }
  split_and!.
  - exact Hb.
  - exact Hs.
  - intros args. apply round_trips_app.
    unfold sendTransfer, createTransfer. rewrite !bind_unfold. simpl.
    destruct (createWalletTransferV4 _) as [transfer|e]; simpl.
    + unfold send, await_provider.
      by destruct (external provider transfer (chain w)) as [r s].
    + by rewrite app_nil_r.
  - apply getSeqno_round_trips.
  - intros secretKey args.
    apply (seqno_then_send_log provider _ _ w
             (sender_send_steps provider secretKey args w)).
  - intros secretKey args.
    apply (seqno_then_send_log provider _ _ w
             (sender_sends_steps provider secretKey args w)).
  - by rewrite Hb.
  - intros message. by rewrite Hs.
  - intros args. apply runs_length, runs_sendTransfer.
  - rewrite getSeqno_round_trips.
    destruct (getState provider (chain w)) as [[st|e] s]; [|done].
    by destruct (is_active (state st)).
  - intros secretKey args. apply runs_length, runs_sender_send.
  - intros secretKey args. apply runs_length, runs_sender_sends.
Qed.

(** C3. In [getBalance], [getSeqno], [send] and [sendTransfer], the error
    a provider call raises is the error the operation completes with, and
    so is the error the transfer builder (the signing routine) raises in
    [sendTransfer]; the wallet's fields are then as before. *)
Theorem errors_propagate provider w :
  propagates (getBalance provider) w
  ∧ propagates (getSeqno provider) w
  ∧ (∀ message, propagates (send provider message) w)
  ∧ (∀ args, propagates (sendTransfer provider args) w)
  ∧ (∀ args e,
       createWalletTransferV4 (transferArgs (walletId (this w)) args)
         = Throws e →
       sendTransfer provider args w = (Throws e, w))
  ∧ (∀ e s, getState provider (chain w) = (Throws e, s) →
       (getBalance provider w).1 = Throws e
       ∧ (getSeqno provider w).1 = Throws e)
  ∧ (∀ st s e s', getState provider (chain w) = (Returns st, s) →
       is_active (state st) = true →
       get provider "seqno" [] s = (Throws e, s') →
       (getSeqno provider w).1 = Throws e)
  ∧ (∀ message e s, external provider message (chain w) = (Throws e, s) →
       (send provider message w).1 = Throws e)
  ∧ (∀ args transfer e s,
       createWalletTransferV4 (transferArgs (walletId (this w)) args)
         = Returns transfer →
       external provider transfer (chain w) = (Throws e, s) →
       (sendTransfer provider args w).1 = Throws e).
Proof.
  split_and!.
  - eapply runs_propagates, runs_getBalance.
  - eapply runs_propagates, runs_getSeqno.
  - intros message. eapply runs_propagates, runs_send.
  - intros args. eapply runs_propagates, runs_sendTransfer.
  - intros args e He. unfold sendTransfer, createTransfer.
    rewrite !bind_unfold. simpl. by rewrite He.
  - intros e s He. rewrite getSeqno_steps. unfold getBalance.
    rewrite bind_unfold. unfold await_provider. by rewrite He.
  - intros st s e s' Hst Hact He. rewrite getSeqno_steps, Hst. simpl.
    by rewrite Hact, He.
  - intros message e s He. unfold send, await_provider. by rewrite He.
  - intros args transfer e s Ht He. unfold sendTransfer, createTransfer.
    rewrite !bind_unfold. simpl. rewrite Ht.
    unfold send, await_provider. by rewrite He.
Qed.

(** C7. The wallet's [workchain], [publicKey], [walletId], [init] and
    [address] are what the constructor set: [getBalance], [getSeqno],
    [send], [sendTransfer], [createTransfer], [sender] and the two
    functions of the sender it returns leave each of them unchanged. *)
Theorem fields_immutable provider w :
  same_fields w (getBalance provider w).2
  ∧ same_fields w (getSeqno provider w).2
  ∧ (∀ message, same_fields w (send provider message w).2)
  ∧ (∀ args, same_fields w (sendTransfer provider args w).2)
  ∧ (∀ args, same_fields w (createTransfer args w).2)
  ∧ (∀ secretKey,
       same_fields w (sender provider secretKey w).2
       ∧ ∀ snd, (sender provider secretKey w).1 = Returns snd →
           (∀ args w', same_fields w' (Sender_send snd args w').2)
           ∧ (∀ args w', same_fields w' (Sender_sends snd args w').2)).
Proof.
  split_and!.
  - eapply runs_same_fields, runs_getBalance.
  - eapply runs_same_fields, runs_getSeqno.
  - intros message. eapply runs_same_fields, runs_send.
  - intros args. eapply runs_same_fields, runs_sendTransfer.
  - intros args. eapply runs_same_fields, runs_createTransfer.
  - intros secretKey. split; [eapply runs_same_fields, runs_sender|].
    intros snd [= <-]. split; intros args w'; simpl.
    + eapply runs_same_fields, runs_sender_send.
    + eapply runs_same_fields, runs_sender_sends.
Qed.
End Effects.

(** ** The sender *)

Section SenderObject.
Context `{WalletSigning} {S : Type}.
Implicit Types (provider : ContractProvider S) (w : World S).

(** C2. Each call of the [send] or the [sends] of the object
    [sender(provider, secretKey)] returns first reads the seqno from the
    chain through the provider ([getState], then the getter when the
    account is active); the transfer is built from the object whose
    [seqno] property is the number just read, and that transfer is what the
    call then submits with [provider.external]: the log holds the reading
    and then this one submission. *)
Theorem sender_reads_seqno_first provider secretKey w0 snd :
  (sender provider secretKey w0).1 = Returns snd →
  (∀ args w,
     reads_seqno_first provider (Sender_send snd args)
       (fun seqno =>
          msg ← internal {| ia_to := sa_to args; ia_value := sa_value args;
                            ia_init := sa_init args; ia_body := sa_body args;
                            ia_bounce := sa_bounce args |};
          createWalletTransferV4
            (transferArgs (walletId (this w))
               (senderTransferArgs seqno secretKey (sa_sendMode args)
                                   [msg])))
       w)
  ∧ (∀ args w,
       reads_seqno_first provider (Sender_sends snd args)
         (fun seqno =>
            messages ← mapM (fun msg =>
                internal {| ia_to := sm_to msg; ia_value := sm_value msg;
                            ia_init := sm_init msg; ia_body := sm_body msg;
                            ia_bounce := sm_bounce msg |}) (ss_msgs args);
            createWalletTransferV4
              (transferArgs (walletId (this w))
                 (senderTransferArgs seqno secretKey (ss_sendMode args)
                                     messages)))
         w)
  ∧ (∀ id seqno mode messages,
       transferArgs id (senderTransferArgs seqno secretKey mode messages)
         !! "seqno" = Some (VNumber seqno)).
Proof.
  intros [= <-]. split_and!.
  - intros args w.
    exact (seqno_then_submit provider _ _ w
             (sender_send_steps provider secretKey args w)).
  - intros args w.
    exact (seqno_then_submit provider _ _ w
             (sender_sends_steps provider secretKey args w)).
  - intros id seqno mode messages. unfold transferArgs, senderTransferArgs.
    repeat (rewrite lookup_insert_ne by done). by rewrite lookup_insert_eq.
Qed.
End SenderObject.

(** ** The operations on the reference interpretation *)

Lemma getSeqno_spec_witness :
  (getState BitSDK.provider (chain BitSDK.idle)
     = (Returns {| balance := 5000; state := uninit |}, chain BitSDK.idle)
   ∧ getSeqno BitSDK.provider BitSDK.idle
       = (Returns 0, after BitSDK.idle CallGetState None (chain BitSDK.idle)))
  ∧ (getState BitSDK.provider (chain BitSDK.live)
       = (Returns {| balance := 5000; state := active None None |},
          chain BitSDK.live)
     ∧ getSeqno BitSDK.provider BitSDK.live
         = (Returns 7,
            after (after BitSDK.live CallGetState None (chain BitSDK.live))
                  (CallGet "seqno" []) None (chain BitSDK.live))).
Proof.
  split; (split; [reflexivity|]).
  - exact (proj1 (getSeqno_spec BitSDK.provider BitSDK.idle
                    {| balance := 5000; state := uninit |}
                    (chain BitSDK.idle) eq_refl) eq_refl).
  - exact (proj2 (getSeqno_spec BitSDK.provider BitSDK.live
                    {| balance := 5000; state := active None None |}
                    (chain BitSDK.live) eq_refl) eq_refl).
Defined.

(** C6 as stated fails: on an active account [getSeqno] makes two round
    trips, [getState] and then the getter. *)
Lemma getSeqno_two_round_trips :
  round_trips (getSeqno BitSDK.provider) BitSDK.live
    = [{| request := CallGetState; raised := None |};
       {| request := CallGet "seqno" []; raised := None |}]
  ∧ ¬ (length (round_trips (getSeqno BitSDK.provider) BitSDK.live) ≤ 1)%nat.
Proof.
  assert (round_trips (getSeqno BitSDK.provider) BitSDK.live
          = [{| request := CallGetState; raised := None |};
             {| request := CallGet "seqno" []; raised := None |}]) as Heq.
  { by rewrite getSeqno_round_trips. }
  split; [done|]. rewrite Heq. simpl. lia.
Qed.

(** The sender's [send] on the same account makes three. *)
Example sender_send_three_round_trips :
  length (round_trips
            (sender_send BitSDK.provider BitSDK.key (BitSDK.pay Undefined))
            BitSDK.live) = 3%nat.
Proof. by vm_compute. Qed.

Lemma sender_reads_seqno_first_witness :
  let snd := {| Sender_send := sender_send BitSDK.provider BitSDK.key;
                Sender_sends := sender_sends BitSDK.provider BitSDK.key |} in
  (sender BitSDK.provider BitSDK.key BitSDK.live).1 = Returns snd
  ∧ reads_seqno_first BitSDK.provider
      (Sender_send snd (BitSDK.pay Undefined))
      (sendTransferOf (walletId (this BitSDK.live)) BitSDK.key
                      (BitSDK.pay Undefined))
      BitSDK.live.
Proof.
  split; [reflexivity|].
  exact (proj1 (sender_reads_seqno_first BitSDK.provider BitSDK.key
                  BitSDK.live _ eq_refl)
               (BitSDK.pay Undefined) BitSDK.live).
Defined.

(** On the deployed account at seqno 7 the sender submits one message, the
    transfer built with seqno 7 (wallet id, then seqno, then send mode). *)
Example sender_send_live :
  let '(r, w) := sender_send BitSDK.provider BitSDK.key
                   (BitSDK.pay Undefined) BitSDK.live in
  r = Returns ()
  ∧ BitSDK.inbox (chain w)
      = [BitSDK.bits_be 32 698983191 ++ BitSDK.bits_be 32 7
         ++ BitSDK.bits_be 8 1].
Proof. by vm_compute. Qed.

(** When the provider cannot submit, its error is what [send] throws. *)
Example sender_send_offline :
  (sender_send BitSDK.provider BitSDK.key (BitSDK.pay Undefined)
     BitSDK.offline).1 = Throws "network error"%string.
Proof. by vm_compute. Qed.

Lemma errors_propagate_witness :
  external BitSDK.provider [true] (chain BitSDK.offline)
    = (Throws "network error"%string, chain BitSDK.offline)
  ∧ (send BitSDK.provider [true] BitSDK.offline).1
      = Throws "network error"%string.
Proof.
  split; [reflexivity|].
  pose proof (errors_propagate BitSDK.provider BitSDK.offline)
    as (_ & _ & _ & _ & _ & _ & _ & Hsend & _).
  exact (Hsend [true] "network error"%string (chain BitSDK.offline) eq_refl).
Defined.

Lemma fields_immutable_witness :
  let snd := {| Sender_send := sender_send BitSDK.provider BitSDK.key;
                Sender_sends := sender_sends BitSDK.provider BitSDK.key |} in
  (sender BitSDK.provider BitSDK.key BitSDK.live).1 = Returns snd
  ∧ same_fields BitSDK.live
      (Sender_send snd (BitSDK.pay Undefined) BitSDK.live).2.
Proof.
  split; [reflexivity|].
  pose proof (fields_immutable BitSDK.provider BitSDK.live)
    as (_ & _ & _ & _ & _ & Hsender).
  destruct (Hsender BitSDK.key) as [_ Hsnd].
  destruct (Hsnd _ eq_refl) as [Hsend _].
  exact (Hsend (BitSDK.pay Undefined) BitSDK.live).
Defined.

Lemma createTransfer_forwards_witness :
  let args : gmap string Value :=
    <["walletId" := VNumber 1]> (<["seqno" := VNumber 7]> ∅) in
  ∃ obj : gmap string Value,
    createTransfer args BitSDK.live
      = (createWalletTransferV4 obj, BitSDK.live)
    ∧ obj !! "sendMode" = Some (VNumber 1)
    ∧ obj !! "walletId" = Some (VNumber 698983191)
    ∧ obj !! "seqno" = Some (VNumber 7).
Proof.
  intros args.
  destruct (createTransfer_forwards args BitSDK.live)
    as (obj & Hrun & Hmode & Hid & Hrest).
  exists obj. split_and!.
  - exact Hrun.
  - exact Hmode.
  - exact Hid.
  - rewrite (Hrest "seqno"%string) by done. reflexivity.
Defined.

(** ** More on construction *)

Section ConstructionMore.
Context `{TonCore}.

(** X1. What a created wallet holds: the workchain and the key it was
    given; as code the first root of the parsed code literal; as data the
    cell the builder ends after storing, in this order, 0 in 32 bits, the
    wallet's id in 32 bits, the key's bytes and a 0 bit; and as address the
    contract address of that code and data on its workchain. *)
Theorem created_wallet_consistent (args : CreateArgs) (w : WalletContractV4) :
  create args = Returns w →
  workchain w = ca_workchain args
  ∧ publicKey w = ca_publicKey args
  ∧ (∃ roots,
       Cell_fromBoc (Buffer_from_base64 walletCodeBoc) = Returns roots
       ∧ code (init w) = roots !! 0%nat)
  ∧ (∃ b1 b2 b3 b4,
       storeUint beginCell 0 32 = Returns b1
       ∧ storeUint b1 (walletId w) 32 = Returns b2
       ∧ storeBuffer b2 (publicKey w) = Returns b3
       ∧ storeBit b3 0 = Returns b4
       ∧ endCell b4 = Returns (data (init w)))
  ∧ contractAddress (workchain w) (code (init w)) (data (init w))
      = Returns (address w).
Proof.
  unfold create. intros (c & d & a & Hc & Hd & Ha & ->)%new_returns.
  simpl. split_and!; [done|done| | |done].
  - unfold initialCode, mbind, Completion_bind, cbind, mret, Completion_ret
      in Hc.
    destruct (Cell_fromBoc _) as [roots|e]; [|done].
    exists roots. split; [done|]. by injection Hc as <-.
  - unfold initialData, mbind, Completion_bind, cbind in Hd.
    destruct (storeUint beginCell 0 32) as [b1|e]; [|done].
    destruct (storeUint b1 _ 32) as [b2|e] eqn:H2; [|done].
    destruct (storeBuffer b2 _) as [b3|e] eqn:H3; [|done].
    destruct (storeBit b3 0) as [b4|e] eqn:H4; [|done].
    by exists b1, b2, b3, b4.
Qed.

(** X2. [null] and [undefined] are the same walletId argument, and both are
    the same as giving [698983191 + workchain] explicitly; wallets built
    with the default id on different workchains have different ids. *)
Theorem create_default_walletId (workchain1 : Z) (key : Buffer) :
  create {| ca_workchain := workchain1; ca_publicKey := key;
            ca_walletId := Null |}
    = create {| ca_workchain := workchain1; ca_publicKey := key;
                ca_walletId := Undefined |}
  ∧ create {| ca_workchain := workchain1; ca_publicKey := key;
              ca_walletId := Undefined |}
      = create {| ca_workchain := workchain1; ca_publicKey := key;
                  ca_walletId := Just (698983191 + workchain1) |}
  ∧ ∀ workchain2 key2 w1 w2,
      create {| ca_workchain := workchain1; ca_publicKey := key;
                ca_walletId := Undefined |} = Returns w1 →
      create {| ca_workchain := workchain2; ca_publicKey := key2;
                ca_walletId := Undefined |} = Returns w2 →
      workchain1 ≠ workchain2 → walletId w1 ≠ walletId w2.
Proof.
  split_and!; [done|done|].
  intros workchain2 key2 w1 w2.
  unfold create.
  intros (? & ? & ? & _ & _ & _ & ->)%new_returns
         (? & ? & ? & _ & _ & _ & ->)%new_returns Hne.
  simpl. lia.
Qed.

(** X3. Every wallet has the same code cell, and the data cell depends on
    the key and the wallet id only: two wallets with equal keys and equal
    ids have equal data, whatever their workchains. *)
Theorem init_code_data_shared (a1 a2 : CreateArgs) (w1 w2 : WalletContractV4) :
  create a1 = Returns w1 →
  create a2 = Returns w2 →
  code (init w1) = code (init w2)
  ∧ (ca_publicKey a1 = ca_publicKey a2 → walletId w1 = walletId w2 →
     data (init w1) = data (init w2)).
Proof.
  unfold create.
  intros (c1 & d1 & ? & Hc1 & Hd1 & _ & ->)%new_returns
         (c2 & d2 & ? & Hc2 & Hd2 & _ & ->)%new_returns.
  simpl. split; [congruence|]. intros Hpk Hid. rewrite Hpk, Hid in Hd1.
  congruence.
Qed.

(** X4. The constructor validates nothing itself: it throws exactly what
    the SDK throws, at the first of its three steps that fails (parsing the
    code, building the data cell, deriving the address). *)
Theorem new_throws (workchain : Z) (key : Buffer) (id : Maybe Z) (e : Exn) :
  new workchain key id = Throws e ↔
    initialCode = Throws e
    ∨ ∃ c, initialCode = Returns c
           ∧ (initialData (resolveWalletId workchain id) key = Throws e
              ∨ ∃ d, initialData (resolveWalletId workchain id) key
                       = Returns d
                     ∧ contractAddress workchain c d = Throws e).
Proof.
  unfold new, mbind, Completion_bind, cbind, mret, Completion_ret.
  destruct initialCode as [c|e1].
  - destruct (initialData _ _) as [d|e2].
    + destruct (contractAddress workchain c d) as [a|e3] eqn:Ha.
      * split; [done|]. intros [|(c' & [= <-] & [|(d' & [= <-] & Ha')])];
          [done|done|congruence].
      * split.
        -- intros [= ->]. right. exists c. split; [done|]. right. by exists d.
        -- intros [|(c' & [= <-] & [|(d' & [= <-] & Ha')])];
             [done|done|congruence].
    + split.
      * intros [= ->]. right. exists c. split; [done|]. by left.
      * intros [|(c' & _ & [|(d' & ? & _)])]; [done|congruence|done].
  - split.
    + intros [= ->]. by left.
    + intros [|(c' & ? & _)]; [congruence|done].
Qed.
End ConstructionMore.

Example wallet1_created : create BitSDK.args1 = Returns BitSDK.wallet1.
Proof. by vm_compute. Qed.

Lemma created_wallet_consistent_witness :
  create BitSDK.args0 = Returns BitSDK.wallet0
  ∧ workchain BitSDK.wallet0 = 0
  ∧ publicKey BitSDK.wallet0 = BitSDK.key
  ∧ ∃ b1 b2 b3 b4,
      storeUint beginCell 0 32 = Returns b1
      ∧ storeUint b1 (walletId BitSDK.wallet0) 32 = Returns b2
      ∧ storeBuffer b2 (publicKey BitSDK.wallet0) = Returns b3
      ∧ storeBit b3 0 = Returns b4
      ∧ endCell b4 = Returns (data (init BitSDK.wallet0)).
Proof.
  split; [exact wallet0_created|].
  destruct (created_wallet_consistent BitSDK.args0 BitSDK.wallet0
              wallet0_created) as (Hwc & Hpk & _ & Hdata & _).
  split; [exact Hwc|]. split; [exact Hpk|exact Hdata].
Defined.

(** On bit strings the data cell of the wallet is 32 zero bits, the id,
    the key and a zero bit. *)
Example wallet0_data :
  data (init BitSDK.wallet0)
    = BitSDK.bits_be 32 0 ++ BitSDK.bits_be 32 698983191
      ++ BitSDK.buffer_bits BitSDK.key ++ [false].
Proof. by vm_compute. Qed.

Lemma create_default_walletId_witness :
  create BitSDK.args0 = Returns BitSDK.wallet0
  ∧ create {| ca_workchain := 0; ca_publicKey := BitSDK.key;
              ca_walletId := Null |}
      = create BitSDK.args0.
Proof.
  split; [exact wallet0_created|].
  exact (proj1 (create_default_walletId 0 BitSDK.key)).
Defined.

Lemma init_code_data_shared_witness :
  (create BitSDK.args0 = Returns BitSDK.wallet0
   ∧ create BitSDK.args1 = Returns BitSDK.wallet1)
  ∧ code (init BitSDK.wallet0) = code (init BitSDK.wallet1)
  ∧ data (init BitSDK.wallet0) = data (init BitSDK.wallet1).
Proof.
  split; [split; [exact wallet0_created|exact wallet1_created]|].
  destruct (init_code_data_shared BitSDK.args0 BitSDK.args1
              BitSDK.wallet0 BitSDK.wallet1
              wallet0_created wallet1_created) as [Hcode Hdata].
  split; [exact Hcode|]. apply Hdata; [reflexivity|]. by vm_compute.
Defined.

(** The two wallets share code and data but not the address. *)
Example wallets_differ_in_address :
  address BitSDK.wallet0 ≠ address BitSDK.wallet1.
Proof. by vm_compute. Qed.

(** A wallet id that does not fit 32 bits is refused by the builder, and
    that is what the constructor throws. *)
Example create_id_out_of_range :
  create {| ca_workchain := 0; ca_publicKey := BitSDK.key;
            ca_walletId := Just (-1) |}
    = Throws "value is out of range"%string.
Proof. by vm_compute. Qed.

(** ** More on the transfer arguments *)

Section TransferArgs.
Context `{WalletSigning} {S : Type}.
Implicit Types (provider : ContractProvider S) (w : World S).
Implicit Types (args : gmap string Value).

Lemma prop_insert_ne args k k' v :
  k ≠ k' → prop (<[k := v]> args) k' = prop args k'.
Proof. intros Hne. unfold prop. by rewrite lookup_insert_ne. Qed.

Lemma prop_delete_ne args k k' :
  k ≠ k' → prop (delete k args) k' = prop args k'.
Proof. intros Hne. unfold prop. by rewrite lookup_delete_ne. Qed.

(** X5. A [walletId] the caller puts into [args] has no effect: with any
    value for that property, or without the property, [createTransfer]
    does the same. *)
Theorem createTransfer_ignores_walletId args (v : Value) w :
  createTransfer (<["walletId" := v]> args) w = createTransfer args w
  ∧ createTransfer (delete "walletId" args) w = createTransfer args w.
Proof.
  assert (∀ id, transferArgs id (<["walletId" := v]> args)
                = transferArgs id args) as Hins.
  { intros id. unfold transferArgs. rewrite prop_insert_ne by done.
    apply map_eq. intros k. rewrite !lookup_insert.
    by repeat case_decide. }
  assert (∀ id, transferArgs id (delete "walletId" args)
                = transferArgs id args) as Hdel.
  { intros id. unfold transferArgs. rewrite prop_delete_ne by done.
    apply map_eq. intros k. rewrite !lookup_insert, lookup_delete.
    by repeat case_decide. }
  unfold createTransfer. rewrite !bind_unfold. simpl.
  by rewrite Hins, Hdel.
Qed.


End TransferArgs.

(** ** What is submitted, and when *)

Section Submissions.
Context `{WalletSigning} {S : Type}.
Implicit Types (provider : ContractProvider S) (w : World S).

(** X8. Reading never submits, and building never calls: [getBalance] and
    [getSeqno] hand no message to [provider.external]; [getBalance] calls
    [getState] only and [getSeqno] only [getState] and the getter
    ["seqno"] with no arguments; [createTransfer] and [sender] make no
    round trip at all and leave the world as it is. *)
Theorem reads_never_submit provider w :
  submitted (round_trips (getBalance provider) w) = []
  ∧ submitted (round_trips (getSeqno provider) w) = []
  ∧ (∀ rt, rt ∈ round_trips (getBalance provider) w →
           request rt = CallGetState)
  ∧ (∀ rt, rt ∈ round_trips (getSeqno provider) w →
           request rt = CallGetState ∨ request rt = CallGet "seqno" [])
  ∧ (∀ args, (createTransfer args w).2 = w
             ∧ round_trips (createTransfer args) w = [])
  ∧ (∀ secretKey, (sender provider secretKey w).2 = w
                  ∧ round_trips (sender provider secretKey) w = []).
Proof.
  assert (round_trips (getBalance provider) w
          = [{| request := CallGetState;
                raised := thrown (getState provider (chain w)).1 |}]) as Hb.
  { apply round_trips_app. unfold getBalance. rewrite bind_unfold.
    unfold await_provider.
    by destruct (getState provider (chain w)) as [[st|e] s]. }
  split_and!.
  - by rewrite Hb.
  - apply getSeqno_submits_nothing.
  - intros rt. rewrite Hb. by intros ->%list_elem_of_singleton.
  - apply getSeqno_requests.
  - intros args. unfold createTransfer, round_trips. rewrite bind_unfold.
    simpl. by rewrite drop_all.
  - intros secretKey. unfold round_trips. simpl. by rewrite drop_all.
Qed.

(** X9. [send] submits the message it is given, and [sendTransfer] submits
    exactly when the transfer is built: one round trip, the transfer's
    submission, when [createWalletTransferV4] returns, and none when it
    throws. *)
Theorem sendTransfer_submits_iff_built provider w :
  (∀ message, submitted (round_trips (send provider message) w) = [message])
  ∧ ∀ args,
      round_trips (sendTransfer provider args) w =
        match createWalletTransferV4
                (transferArgs (walletId (this w)) args) with
        | Returns transfer =>
            [{| request := CallExternal transfer;
                raised := thrown (external provider transfer (chain w)).1 |}]
        | Throws _ => []
        end.
Proof.
  split.
  - intros message. unfold send, await_provider, round_trips.
    destruct (external provider message (chain w)) as [r s]. simpl.
    by rewrite drop_app_length.
  - intros args. apply round_trips_app.
    unfold sendTransfer, createTransfer. rewrite !bind_unfold. simpl.
    destruct (createWalletTransferV4 _) as [transfer|e]; simpl.
    + unfold send, await_provider.
      by destruct (external provider transfer (chain w)) as [r s].
    + by rewrite app_nil_r.
Qed.

(** X10. A call of the sender's [send] or [sends] submits at most one
    message: the transfer built from the seqno it read, when reading and
    building both succeed, and nothing otherwise. *)
Theorem sender_submits provider secretKey w :
  (∀ args,
     submitted (round_trips (sender_send provider secretKey args) w) =
       match getSeqno provider w with
       | (Returns seqno, _) =>
           match sendTransferOf (walletId (this w)) secretKey args seqno with
           | Returns transfer => [transfer]
           | Throws _ => []
           end
       | (Throws _, _) => []
       end)
  ∧ (∀ args,
       submitted (round_trips (sender_sends provider secretKey args) w) =
         match getSeqno provider w with
         | (Returns seqno, _) =>
             match sendsTransferOf (walletId (this w)) secretKey args seqno
             with
             | Returns transfer => [transfer]
             | Throws _ => []
             end
         | (Throws _, _) => []
         end).
Proof.
  split; intros args.
  - rewrite (seqno_then_send_trips provider _ _ w
               (sender_send_steps provider secretKey args w)).
    rewrite submitted_app, getSeqno_submits_nothing. simpl.
    destruct (getSeqno provider w) as [[seqno|e] w1]; [|done].
    by destruct (sendTransferOf _ _ _ _).
  - rewrite (seqno_then_send_trips provider _ _ w
               (sender_sends_steps provider secretKey args w)).
    rewrite submitted_app, getSeqno_submits_nothing. simpl.
    destruct (getSeqno provider w) as [[seqno|e] w1]; [|done].
    by destruct (sendsTransferOf _ _ _ _).
Qed.

(** X11. The sender's functions catch nothing either: the error of any of
    their round trips is what they throw; when [getSeqno] throws, or
    [internal] or the transfer builder does, they throw that error right
    after the seqno was read, with nothing submitted. *)
Theorem sender_errors_propagate provider secretKey w :
  (∀ args, propagates (sender_send provider secretKey args) w)
  ∧ (∀ args, propagates (sender_sends provider secretKey args) w)
  ∧ (∀ e w1, getSeqno provider w = (Throws e, w1) →
       (∀ args, sender_send provider secretKey args w = (Throws e, w1))
       ∧ (∀ args, sender_sends provider secretKey args w = (Throws e, w1)))
  ∧ (∀ seqno w1 e, getSeqno provider w = (Returns seqno, w1) →
       (∀ args,
          sendTransferOf (walletId (this w)) secretKey args seqno = Throws e →
          sender_send provider secretKey args w = (Throws e, w1))
       ∧ (∀ args,
            sendsTransferOf (walletId (this w)) secretKey args seqno
              = Throws e →
            sender_sends provider secretKey args w = (Throws e, w1))).
Proof.
  split_and!.
  - intros args. eapply runs_propagates, runs_sender_send.
  - intros args. eapply runs_propagates, runs_sender_sends.
  - intros e w1 Hs. split; intros args.
    + by rewrite sender_send_steps, Hs.
    + by rewrite sender_sends_steps, Hs.
  - intros seqno w1 e Hs. split; intros args Hb.
    + by rewrite sender_send_steps, Hs, Hb.
    + by rewrite sender_sends_steps, Hs, Hb.
Qed.


(** X12. For an account that is not active the sender's functions take the
    seqno to be 0 without calling the getter: after the one [getState]
    round trip they have the transfer built with seqno 0 and call
    [provider.external] with it; the log holds that [getState] and then
    this submission, and they complete as the submission does.  When the
    transfer cannot be built they throw after the [getState] round trip
    with nothing submitted. *)
Theorem sender_inactive_seqno_zero provider secretKey w st s :
  getState provider (chain w) = (Returns st, s) →
  is_active (state st) = false →
  (∀ args,
     match sendTransferOf (walletId (this w)) secretKey args 0 with
     | Returns transfer =>
         let '(r, s') := external provider transfer s in
         sender_send provider secretKey args w
           = (r, after (after w CallGetState None s)
                       (CallExternal transfer) (thrown r) s')
         ∧ round_trips (sender_send provider secretKey args) w
             = [{| request := CallGetState; raised := None |};
                {| request := CallExternal transfer; raised := thrown r |}]
         ∧ submitted (round_trips (sender_send provider secretKey args) w)
             = [transfer]
     | Throws e =>
         sender_send provider secretKey args w
           = (Throws e, after w CallGetState None s)
         ∧ round_trips (sender_send provider secretKey args) w
             = [{| request := CallGetState; raised := None |}]
     end)
  ∧ (∀ args,
       match sendsTransferOf (walletId (this w)) secretKey args 0 with
       | Returns transfer =>
           let '(r, s') := external provider transfer s in
           sender_sends provider secretKey args w
             = (r, after (after w CallGetState None s)
                         (CallExternal transfer) (thrown r) s')
           ∧ round_trips (sender_sends provider secretKey args) w
               = [{| request := CallGetState; raised := None |};
                  {| request := CallExternal transfer; raised := thrown r |}]
           ∧ submitted (round_trips (sender_sends provider secretKey args) w)
               = [transfer]
       | Throws e =>
           sender_sends provider secretKey args w
             = (Throws e, after w CallGetState None s)
           ∧ round_trips (sender_sends provider secretKey args) w
               = [{| request := CallGetState; raised := None |}]
       end).
Proof.
  intros Hst Hact.
  assert (seqno_on_chain provider (chain w)
          = (Returns 0, s, [{| request := CallGetState; raised := None |}]))
    as Hchain.
  { unfold seqno_on_chain. by rewrite Hst, Hact. }
  split; intros args.
  - pose proof (seqno_then_submit provider _ _ w
                  (sender_send_steps provider secretKey args w)) as Hrun.
    unfold reads_seqno_first in Hrun. rewrite Hchain in Hrun.
    destruct (sendTransferOf _ _ _ _) as [transfer|e].
    + destruct (external provider transfer s) as [r s'].
      destruct Hrun as (Hrun & Hlog & Hsub). split_and!; [|done|done].
      rewrite Hrun. unfold after. simpl. by rewrite <- app_assoc.
    + split; [done|]. apply round_trips_app. by rewrite Hrun.
  - pose proof (seqno_then_submit provider _ _ w
                  (sender_sends_steps provider secretKey args w)) as Hrun.
    unfold reads_seqno_first in Hrun. rewrite Hchain in Hrun.
    destruct (sendsTransferOf _ _ _ _) as [transfer|e].
    + destruct (external provider transfer s) as [r s'].
      destruct Hrun as (Hrun & Hlog & Hsub). split_and!; [|done|done].
      rewrite Hrun. unfold after. simpl. by rewrite <- app_assoc.
    + split; [done|]. apply round_trips_app. by rewrite Hrun.
Qed.
End Submissions.

(** ** The messages of [sends] *)

Section Sends.
Context `{WalletSigning} {S : Type}.
Implicit Types (provider : ContractProvider S) (w : World S).

Lemma mapM_Returns {A B} (f : A → Completion Exn B) l ms :
  mapM f l = Returns ms ↔ Forall2 (fun x y => f x = Returns y) l ms.
Proof.
  revert ms. induction l as [|x l IH]; intros ms; simpl.
  - split.
    + intros [= <-]. constructor.
    + by intros ->%Forall2_nil_inv_l.
  - unfold mbind, Completion_bind, cbind, mret, Completion_ret.
    destruct (f x) as [y|e] eqn:Hx.
    + destruct (mapM f l) as [k|e] eqn:Hl.
      * split.
        -- intros [= <-]. constructor; [done|]. by apply IH.
        -- intros (y' & k' & Hy & Hk & ->)%Forall2_cons_inv_l.
           apply IH in Hk. congruence.
      * split; [done|].
        intros (y' & k' & Hy & Hk & ->)%Forall2_cons_inv_l.
        apply IH in Hk. congruence.
    + split; [done|].
      intros (y' & k' & Hy & Hk & ->)%Forall2_cons_inv_l. congruence.
Qed.

Lemma mapM_Throws {A B} (f : A → Completion Exn B) l1 x l2 e :
  Forall (fun x => ∃ y, f x = Returns y) l1 →
  f x = Throws e →
  mapM f (l1 ++ x :: l2) = Throws e.
Proof.
  intros Hl1 Hx. induction Hl1 as [|x1 l1 [y Hy] _ IH]; simpl.
  - unfold mbind, Completion_bind, cbind. by rewrite Hx.
  - unfold mbind, Completion_bind, cbind in *. by rewrite Hy, IH.
Qed.

(** X13. [sends] with a single message does what [send] does with that
    message and the same send mode. *)
Theorem sends_singleton_is_send provider secretKey (args : SenderArguments) w :
  sender_sends provider secretKey
    {| ss_sendMode := sa_sendMode args;
       ss_msgs := [{| sm_value := sa_value args; sm_to := sa_to args;
                      sm_bounce := sa_bounce args; sm_init := sa_init args;
                      sm_body := sa_body args |}] |} w
  = sender_send provider secretKey args w.
Proof.
  rewrite sender_sends_steps, sender_send_steps.
  destruct (getSeqno provider w) as [[seqno|e] w1]; [|done].
  assert (∀ id,
    sendsTransferOf id secretKey
      {| ss_sendMode := sa_sendMode args;
         ss_msgs := [{| sm_value := sa_value args; sm_to := sa_to args;
                        sm_bounce := sa_bounce args; sm_init := sa_init args;
                        sm_body := sa_body args |}] |} seqno
    = sendTransferOf id secretKey args seqno) as ->; [|done].
  intros id. unfold sendsTransferOf, sendTransferOf. simpl.
  unfold internalOfMessage, internalOfArgs. simpl.
  unfold mbind, Completion_bind, cbind, mret, Completion_ret.
  by destruct (internal _).
Qed.

(** X14. A transfer [sends] submits was built from one internal message
    per entry of [msgs], in the order of [msgs], each the result of
    [internal] on that entry's fields. *)
Theorem sends_messages_in_order provider secretKey args w transfer :
  transfer ∈ submitted (round_trips (sender_sends provider secretKey args) w) →
  ∃ seqno w1 messages,
    getSeqno provider w = (Returns seqno, w1)
    ∧ Forall2 (fun msg built => internal (internalOfMessage msg) = Returns built)
              (ss_msgs args) messages
    ∧ length messages = length (ss_msgs args)
    ∧ createWalletTransferV4
        (transferArgs (walletId (this w))
           (senderTransferArgs seqno secretKey (ss_sendMode args) messages))
        = Returns transfer.
Proof.
  rewrite (seqno_then_send_trips provider _ _ w
             (sender_sends_steps provider secretKey args w)).
  rewrite submitted_app, getSeqno_submits_nothing. simpl.
  destruct (getSeqno provider w) as [[seqno|e] w1];
    [|by intros ?%elem_of_nil].
  destruct (sendsTransferOf _ _ _ _) as [tr|e] eqn:Hb;
    [|by intros ?%elem_of_nil].
  simpl. intros ->%list_elem_of_singleton.
  unfold sendsTransferOf in Hb.
  unfold mbind at 1, Completion_bind, cbind in Hb.
  destruct (mapM _ _) as [messages|e] eqn:Hm; [|done].
  apply mapM_Returns in Hm. exists seqno, w1, messages.
  split_and!; [done|done| |done].
  symmetry. by eapply Forall2_length.
Qed.

(** X15. When [internal] throws on one of the messages, those before it
    being fine, [sends] throws that error once the seqno is read: no
    transfer is built and nothing is submitted. *)
Theorem sends_first_failure provider secretKey args w seqno w1 before msg rest e :
  getSeqno provider w = (Returns seqno, w1) →
  ss_msgs args = before ++ msg :: rest →
  Forall (fun m => ∃ built, internal (internalOfMessage m) = Returns built)
         before →
  internal (internalOfMessage msg) = Throws e →
  sender_sends provider secretKey args w = (Throws e, w1)
  ∧ submitted (round_trips (sender_sends provider secretKey args) w) = [].
Proof.
  intros Hs Hmsgs Hbefore Hmsg.
  assert (sendsTransferOf (walletId (this w)) secretKey args seqno
          = Throws e) as Hb.
  { unfold sendsTransferOf. rewrite Hmsgs.
    rewrite (mapM_Throws _ before msg rest e Hbefore Hmsg). done. }
  split.
  - by rewrite sender_sends_steps, Hs, Hb.
  - rewrite (seqno_then_send_trips provider _ _ w
               (sender_sends_steps provider secretKey args w)).
    rewrite submitted_app, getSeqno_submits_nothing, Hs, Hb. done.
Qed.

(** X16. [sends] with no messages does not return early: it reads the
    seqno, has a transfer with an empty message list built and submits
    it. *)
Theorem sends_empty provider secretKey args w seqno w1 transfer :
  ss_msgs args = [] →
  getSeqno provider w = (Returns seqno, w1) →
  createWalletTransferV4
    (transferArgs (walletId (this w))
       (senderTransferArgs seqno secretKey (ss_sendMode args) []))
    = Returns transfer →
  sender_sends provider secretKey args w = send provider transfer w1
  ∧ submitted (round_trips (sender_sends provider secretKey args) w)
      = [transfer].
Proof.
  intros Hmsgs Hs Hb.
  assert (sendsTransferOf (walletId (this w)) secretKey args seqno
          = Returns transfer) as Hb'.
  { unfold sendsTransferOf. rewrite Hmsgs. simpl. exact Hb. }
  split.
  - by rewrite sender_sends_steps, Hs, Hb'.
  - rewrite (seqno_then_send_trips provider _ _ w
               (sender_sends_steps provider secretKey args w)).
    rewrite submitted_app, getSeqno_submits_nothing, Hs, Hb'. done.
Qed.
End Sends.

(** ** The further properties on the two interpretations *)


Lemma reads_never_submit_witness :
  let rt := {| request := CallGetState; raised := None |} in
  rt ∈ round_trips (getSeqno BitSDK.provider) BitSDK.live
  ∧ (request rt = CallGetState ∨ request rt = CallGet "seqno" []).
Proof.
  intros rt.
  assert (rt ∈ round_trips (getSeqno BitSDK.provider) BitSDK.live) as Hin.
  { rewrite getSeqno_round_trips. simpl. apply list_elem_of_here. }
  split; [exact Hin|].
  destruct (reads_never_submit BitSDK.provider BitSDK.live)
    as (_ & _ & _ & Hreq & _).
  exact (Hreq rt Hin).
Defined.

Lemma sender_errors_propagate_witness :
  let w1 := (getSeqno BitSDK.provider BitSDK.live).2 in
  (getSeqno BitSDK.provider BitSDK.live = (Returns 7, w1)
   ∧ sendsTransferOf (walletId (this BitSDK.live)) BitSDK.key
       (BitSDK.batch [1; 2; 3; 4; 5]) 7
       = Throws "Maximum number of messages in a single transfer is 4"%string)
  ∧ sender_sends BitSDK.provider BitSDK.key (BitSDK.batch [1; 2; 3; 4; 5])
      BitSDK.live
      = (Throws "Maximum number of messages in a single transfer is 4"%string,
         w1).
Proof.
  intros w1.
  assert (getSeqno BitSDK.provider BitSDK.live = (Returns 7, w1)) as Hs.
  { by rewrite getSeqno_steps. }
  assert (sendsTransferOf (walletId (this BitSDK.live)) BitSDK.key
            (BitSDK.batch [1; 2; 3; 4; 5]) 7
          = Throws "Maximum number of messages in a single transfer is 4"%string)
    as Hb.
  { by vm_compute. }
  split; [by split|].
  destruct (sender_errors_propagate BitSDK.provider BitSDK.key BitSDK.live)
    as (_ & _ & _ & Hbuild).
  destruct (Hbuild 7 w1
              "Maximum number of messages in a single transfer is 4"%string
              Hs) as [_ Hsends].
  exact (Hsends (BitSDK.batch [1; 2; 3; 4; 5]) Hb).
Defined.

Lemma sender_inactive_seqno_zero_witness :
  let transfer := BitSDK.bits_be 32 698983191 ++ BitSDK.bits_be 32 0
                  ++ BitSDK.bits_be 8 1 in
  (getState BitSDK.provider (chain BitSDK.idle)
     = (Returns {| balance := 5000; state := uninit |}, chain BitSDK.idle)
   ∧ is_active uninit = false)
  ∧ submitted (round_trips
       (sender_send BitSDK.provider BitSDK.key (BitSDK.pay Undefined))
       BitSDK.idle) = [transfer].
Proof.
  intros transfer. split; [split; reflexivity|].
  pose proof (proj1 (sender_inactive_seqno_zero BitSDK.provider BitSDK.key
                       BitSDK.idle {| balance := 5000; state := uninit |}
                       (chain BitSDK.idle) eq_refl eq_refl)
                    (BitSDK.pay Undefined)) as Hrun.
  assert (sendTransferOf (walletId (this BitSDK.idle)) BitSDK.key
            (BitSDK.pay Undefined) 0 = Returns transfer) as Hb.
  { by vm_compute. }
  rewrite Hb in Hrun.
  destruct (external BitSDK.provider transfer (chain BitSDK.idle))
    as [r s'].
  exact (proj2 (proj2 Hrun)).
Defined.

(** On the account that is not deployed the transfer carries seqno 0, and
    the getter is not called. *)
Example sender_send_idle :
  let '(r, w) := sender_send BitSDK.provider BitSDK.key
                   (BitSDK.pay Undefined) BitSDK.idle in
  r = Returns ()
  ∧ map request (trips w)
      = [CallGetState;
         CallExternal (BitSDK.bits_be 32 698983191 ++ BitSDK.bits_be 32 0
                       ++ BitSDK.bits_be 8 1)].
Proof. by vm_compute. Qed.

Lemma sends_messages_in_order_witness :
  let transfer := BitSDK.bits_be 32 698983191 ++ BitSDK.bits_be 32 7
                  ++ BitSDK.bits_be 8 1 in
  transfer ∈ submitted (round_trips
               (sender_sends BitSDK.provider BitSDK.key
                  (BitSDK.batch [10; 20])) BitSDK.live)
  ∧ ∃ seqno w1 messages,
      getSeqno BitSDK.provider BitSDK.live = (Returns seqno, w1)
      ∧ Forall2 (fun msg built =>
                   internal (internalOfMessage msg) = Returns built)
                (ss_msgs (BitSDK.batch [10; 20])) messages
      ∧ length messages = length (ss_msgs (BitSDK.batch [10; 20]))
      ∧ createWalletTransferV4
          (transferArgs (walletId (this BitSDK.live))
             (senderTransferArgs seqno BitSDK.key
                (ss_sendMode (BitSDK.batch [10; 20])) messages))
          = Returns transfer.
Proof.
  intros transfer.
  assert (transfer ∈ submitted (round_trips
            (sender_sends BitSDK.provider BitSDK.key
               (BitSDK.batch [10; 20])) BitSDK.live)) as Hin.
  { vm_compute. apply list_elem_of_here. }
  split; [exact Hin|].
  exact (sends_messages_in_order BitSDK.provider BitSDK.key
           (BitSDK.batch [10; 20]) BitSDK.live transfer Hin).
Defined.

Lemma sends_first_failure_witness :
  let w1 := after StrictSDK.world CallGetState None () in
  (@getSeqno StrictSDK.core unit StrictSDK.provider StrictSDK.world
     = (Returns 0, w1)
   ∧ ss_msgs (StrictSDK.batch [10; -5; 30])
       = [StrictSDK.item 10] ++ StrictSDK.item (-5) :: [StrictSDK.item 30]
   ∧ @internal StrictSDK.core (internalOfMessage (StrictSDK.item (-5)))
       = Throws "negative value"%string)
  ∧ @sender_sends StrictSDK.core StrictSDK.signing unit StrictSDK.provider
      BitSDK.key (StrictSDK.batch [10; -5; 30]) StrictSDK.world
      = (Throws "negative value"%string, w1).
Proof.
  intros w1. split; [split_and!; reflexivity|].
  refine (proj1 (@sends_first_failure StrictSDK.core StrictSDK.signing unit
                   StrictSDK.provider BitSDK.key
                   (StrictSDK.batch [10; -5; 30]) StrictSDK.world 0 w1
                   [StrictSDK.item 10] (StrictSDK.item (-5))
                   [StrictSDK.item 30] "negative value"%string
                   eq_refl eq_refl _ eq_refl)).
  constructor; [|constructor]. by eexists.
Defined.

Lemma sends_empty_witness :
  let w1 := (getSeqno BitSDK.provider BitSDK.live).2 in
  let transfer := BitSDK.bits_be 32 698983191 ++ BitSDK.bits_be 32 7
                  ++ BitSDK.bits_be 8 1 in
  (ss_msgs (BitSDK.batch []) = []
   ∧ getSeqno BitSDK.provider BitSDK.live = (Returns 7, w1)
   ∧ createWalletTransferV4
       (transferArgs (walletId (this BitSDK.live))
          (senderTransferArgs 7 BitSDK.key
             (ss_sendMode (BitSDK.batch [])) []))
       = Returns transfer)
  ∧ submitted (round_trips
       (sender_sends BitSDK.provider BitSDK.key (BitSDK.batch []))
       BitSDK.live) = [transfer].
Proof.
  intros w1 transfer.
  assert (getSeqno BitSDK.provider BitSDK.live = (Returns 7, w1)) as Hs.
  { by rewrite getSeqno_steps. }
  assert (createWalletTransferV4
            (transferArgs (walletId (this BitSDK.live))
               (senderTransferArgs 7 BitSDK.key
                  (ss_sendMode (BitSDK.batch [])) []))
          = Returns transfer) as Hb.
  { by vm_compute. }
  split; [by split_and!|].
  exact (proj2 (sends_empty BitSDK.provider BitSDK.key (BitSDK.batch [])
                  BitSDK.live 7 w1 transfer eq_refl Hs Hb)).
Defined.
